(** * OS2MO frontend: validation clients, rule adapters, the Employee
      resource client and the organisation-unit picker

    A shallow embedding of
    - [src/api/Employee.js]                 (module [Employee]),
    - the Validate resource client          (module [Validate]),
    - the two validation rule adapters      (modules [AssociationRule]
      and [CandidateParentRule]),
    - the organisation-unit picker component (module [Picker]).

    JavaScript values are embedded as a JSON-like data type, synchronous
    evaluation as an error monad (a [TypeError] can be thrown by a property
    read on [undefined]/[null]), promises by their settlement, and the two
    global channels the code writes to (the event bus and the console) as
    an explicit world that is threaded through every call. *)

From Stdlib Require Import String Ascii List ZArith NArith Bool DecimalString.
From Stdlib Require DecimalNat DecimalFacts.
Import ListNotations.
Open Scope string_scope.

(* ================================================================== *)
(** ** JavaScript values *)
(* ================================================================== *)

#[local] Set Warnings "-register-all".

Inductive JsVal : Type :=
| JUndefined
| JNull
| JBool (b : bool)
| JNum (n : Z)
| JStr (s : string)
| JArr (items : list JsVal)
| JObj (props : list (string * JsVal)).

(** What a [throw] carries: the [TypeError] the engine raises itself, or
    a value raised by someone else (here: the error object with which the
    HTTP client rejects). *)
Inductive Exn : Type :=
| TypeError
| Raised (v : JsVal).

(** Result of evaluating an expression or a function body. *)
Inductive Completion (A : Type) : Type :=
| Normal (a : A)
| Throw (e : Exn).
Arguments Normal {A} a.
Arguments Throw {A} e.

Definition cbind {A B} (c : Completion A) (k : A -> Completion B)
  : Completion B :=
  match c with
  | Normal a => k a
  | Throw e => Throw e
  end.

Declare Scope completion_scope.
Delimit Scope completion_scope with cpl.
Notation "x <- c ;; k" := (cbind c (fun x => k))
  (at level 61, c at next level, right associativity) : completion_scope.

(** ToBoolean. *)
Definition truthy (v : JsVal) : bool :=
  match v with
  | JUndefined | JNull => false
  | JBool b => b
  | JNum n => negb (n =? 0)%Z
  | JStr s => negb (String.eqb s "")
  | JArr _ | JObj _ => true
  end.

Definition nullish (v : JsVal) : bool :=
  match v with
  | JUndefined | JNull => true
  | _ => false
  end.

Fixpoint lookup (key : string) (props : list (string * JsVal))
  : option JsVal :=
  match props with
  | [] => None
  | (k, v) :: rest => if String.eqb k key then Some v else lookup key rest
  end.

(** *** Strings as JavaScript sees them

    A [string] holds the UTF-8 encoding of the text; JavaScript counts and
    indexes a string by UTF-16 code units.  [utf16_units] reads the code
    units off the bytes: a sequence of one, two or three bytes is one
    unit, a sequence of four bytes (a character beyond U+FFFF) is a pair
    of surrogates.  A byte that does not start a complete sequence is
    taken as a unit by itself. *)

Definition continuation (c : ascii) : N := N.land (N_of_ascii c) 63.

Fixpoint utf16_units (s : string) : list N :=
  match s with
  | EmptyString => []
  | String b0 r0 =>
      let n0 := N_of_ascii b0 in
      if (n0 <? 192)%N then n0 :: utf16_units r0
      else if (n0 <? 224)%N then
        match r0 with
        | String b1 r1 =>
            N.lor (N.shiftl (N.land n0 31) 6) (continuation b1)
            :: utf16_units r1
        | EmptyString => n0 :: utf16_units r0
        end
      else if (n0 <? 240)%N then
        match r0 with
        | String b1 (String b2 r2) =>
            N.lor (N.shiftl (N.land n0 15) 12)
              (N.lor (N.shiftl (continuation b1) 6) (continuation b2))
            :: utf16_units r2
        | _ => n0 :: utf16_units r0
        end
      else
        match r0 with
        | String b1 (String b2 (String b3 r3)) =>
            let cp :=
              N.lor (N.shiftl (N.land n0 7) 18)
                (N.lor (N.shiftl (continuation b1) 12)
                   (N.lor (N.shiftl (continuation b2) 6) (continuation b3))) in
            let v := (cp - 65536)%N in
            (55296 + N.shiftr v 10)%N :: (56320 + N.land v 1023)%N
            :: utf16_units r3
        | _ => n0 :: utf16_units r0
        end
  end.

(** The one-unit string of a code unit, encoded like any other text (a
    lone surrogate as if it were a character). *)
Definition unit_string (u : N) : string :=
  if (u <? 128)%N then String (ascii_of_N u) EmptyString
  else if (u <? 2048)%N then
    String (ascii_of_N (N.lor 192 (N.shiftr u 6)))
      (String (ascii_of_N (N.lor 128 (N.land u 63))) EmptyString)
  else
    String (ascii_of_N (N.lor 224 (N.shiftr u 12)))
      (String (ascii_of_N (N.lor 128 (N.land (N.shiftr u 6) 63)))
         (String (ascii_of_N (N.lor 128 (N.land u 63))) EmptyString)).

(** [s.length]. *)
Definition js_length (s : string) : nat := List.length (utf16_units s).

(** The own property [key] of an object, [undefined] when it has none. *)
Definition own (key : string) (props : list (string * JsVal)) : JsVal :=
  match lookup key props with
  | Some x => x
  | None => JUndefined
  end.

(** [v.key] for a named (non-index) key.  Own data properties only: the
    values here are request and response data, and none of the keys the
    program reads is inherited from a built-in prototype. *)
Definition get_prop (v : JsVal) (key : string) : Completion JsVal :=
  match v with
  | JUndefined | JNull => Throw TypeError
  | JObj props => Normal (own key props)
  | JStr s =>
      Normal (if String.eqb key "length"
              then JNum (Z.of_nat (js_length s)) else JUndefined)
  | JArr items =>
      Normal (if String.eqb key "length"
              then JNum (Z.of_nat (List.length items)) else JUndefined)
  | JBool _ | JNum _ => Normal JUndefined
  end.

Definition index_key (i : nat) : string :=
  NilZero.string_of_uint (Nat.to_uint i).

(** [v[i]] for a numeric index; on a string, the code unit at [i]. *)
Definition get_index (v : JsVal) (i : nat) : Completion JsVal :=
  match v with
  | JUndefined | JNull => Throw TypeError
  | JArr items => Normal (nth i items JUndefined)
  | JObj props => Normal (own (index_key i) props)
  | JStr s =>
      Normal (match nth_error (utf16_units s) i with
              | Some u => JStr (unit_string u)
              | None => JUndefined
              end)
  | JBool _ | JNum _ => Normal JUndefined
  end.

(** [Object.keys(v)]: throws on [undefined] and [null], which cannot be
    converted to an object. *)
Definition object_keys (v : JsVal) : Completion (list string) :=
  match v with
  | JUndefined | JNull => Throw TypeError
  | JObj props => Normal (map fst props)
  | JArr items => Normal (map index_key (seq 0 (List.length items)))
  | JStr s => Normal (map index_key (seq 0 (js_length s)))
  | JBool _ | JNum _ => Normal []
  end.

(** [a || b] on conditions: [b] is evaluated only when [a] is false. *)
Definition cor (a b : Completion bool) : Completion bool :=
  match a with
  | Normal true => Normal true
  | Normal false => b
  | Throw e => Throw e
  end.

(** [!e]. *)
Definition cnot (a : Completion JsVal) : Completion bool :=
  cbind a (fun v => Normal (negb (truthy v))).

(* ================================================================== *)
(** ** The world, promises and their handlers *)
(* ================================================================== *)

Record Event : Type := mkEvent { name : string; payload : JsVal }.

(** The two global channels the code writes to, oldest entry first. *)
Record World : Type := mkWorld {
  eventBus : list Event;     (* every [EventBus.$emit(name, payload)] *)
  console : list JsVal       (* every [console.log(v)] *)
}.

Definition Eff (A : Type) : Type := World -> A * World.

(** A function body running in the world: it may throw. *)
Definition Body (A : Type) : Type := Eff (Completion A).

Definition ret {A} (a : A) : Body A := fun w => (Normal a, w).

Definition bind {A B} (m : Body A) (k : A -> Body B) : Body B :=
  fun w =>
    match m w with
    | (Normal a, w1) => k a w1
    | (Throw e, w1) => (Throw e, w1)
    end.

Definition lift {A} (c : Completion A) : Body A := fun w => (c, w).

Declare Scope body_scope.
Delimit Scope body_scope with body.
Notation "x <- m ;; k" := (bind m (fun x => k))
  (at level 61, m at next level, right associativity) : body_scope.
Notation "m ;; k" := (bind m (fun _ => k))
  (at level 61, right associativity) : body_scope.

(** [EventBus.$emit(name, payload)]: the bus records the event.  What the
    subscribed components do with it is not part of this code. *)
Definition emit (n : string) (p : JsVal) : Body JsVal :=
  fun w => (Normal JUndefined,
            mkWorld (eventBus w ++ [mkEvent n p]) (console w)).

(** [console.log(v)]. *)
Definition console_log (v : JsVal) : Body JsVal :=
  fun w => (Normal JUndefined,
            mkWorld (eventBus w) (console w ++ [v])).

(** How a promise settles. *)
Inductive Settled : Type :=
| Resolved (v : JsVal)
| Rejected (e : Exn).

Definition Promise : Type := Eff Settled.

Definition settle (c : Completion JsVal) : Settled :=
  match c with
  | Normal v => Resolved v
  | Throw e => Rejected e
  end.

(** [p.then(f)]: a rejection passes through; a throw inside [f] rejects. *)
Definition then_ (p : Promise) (f : JsVal -> Body JsVal) : Promise :=
  fun w =>
    match p w with
    | (Resolved v, w1) => let (c, w2) := f v w1 in (settle c, w2)
    | (Rejected e, w1) => (Rejected e, w1)
    end.

(** [p.catch(h)]: a resolution passes through. *)
Definition catch_ (p : Promise) (h : Exn -> Body JsVal) : Promise :=
  fun w =>
    match p w with
    | (Resolved v, w1) => (Resolved v, w1)
    | (Rejected e, w1) => let (c, w2) := h e w1 in (settle c, w2)
    end.

(** [p.then(f, h)]: [h] sees only the rejection of [p], not a throw of [f]. *)
Definition then2 (p : Promise) (f : JsVal -> Body JsVal)
  (h : Exn -> Body JsVal) : Promise :=
  fun w =>
    match p w with
    | (Resolved v, w1) => let (c, w2) := f v w1 in (settle c, w2)
    | (Rejected e, w1) => let (c, w2) := h e w1 in (settle c, w2)
    end.

(** [error.key] where [error] is what a rejection handler received.  A
    [TypeError] has no own property of the names read here. *)
Definition exn_prop (e : Exn) (key : string) : Completion JsVal :=
  match e with
  | TypeError => Normal JUndefined
  | Raised v => get_prop v key
  end.

(** Outcome of one HTTP round trip through an axios instance: a 2xx answer
    resolves with a response object, anything else rejects with an error
    object (carrying [response] when the server answered). *)
Inductive HttpOutcome : Type :=
| HttpOk (response : list (string * JsVal))
| HttpErr (error : list (string * JsVal)).

Definition request (o : HttpOutcome) : Promise :=
  fun w =>
    match o with
    | HttpOk r => (Resolved (JObj r), w)
    | HttpErr e => (Rejected (Raised (JObj e)), w)
    end.

(* ================================================================== *)
(** ** The Employee resource client ([src/api/Employee.js]) *)
(* ================================================================== *)

Module Employee.
Section Client.

(** [Service] is the axios instance of [./HttpCommon]: what the backend
    answers to a GET of a URL and to a POST of a body to a URL. *)
Variable Service_get : string -> HttpOutcome.
Variable Service_post : string -> JsVal -> HttpOutcome.

Local Open Scope body_scope.

(** The rejection handler shared by the operations:
    [error => { console.log(error.response) }]. *)
Definition log_response (error : Exn) : Body JsVal :=
  r <- lift (exn_prop error "response") ;;
  console_log r ;;
  ret JUndefined.

(** [response.data]. *)
Definition data_of (response : JsVal) : Body JsVal :=
  lift (get_prop response "data").

Definition getAll (orgUuid : string) : Promise :=
  catch_
    (then_ (request (Service_get ("/o/" ++ orgUuid ++ "/e/")))
       (fun response =>
          d <- data_of response ;;
          lift (get_prop d "items")))
    log_response.

Definition get (uuid : string) : Promise :=
  catch_
    (then_ (request (Service_get ("/e/" ++ uuid ++ "/")))
       (fun response =>
          d <- data_of response ;;
          org <- lift (get_prop d "org") ;;
          emit "organisation-changed" org ;;
          data_of response))
    log_response.

Definition history (uuid : string) : Promise :=
  then_ (request (Service_get ("/e/" ++ uuid ++ "/history/")))
    (fun response => data_of response).

(** [validity = validity || 'present']; an omitted argument is [None]. *)
Definition validity_or_present (validity : option string) : string :=
  match validity with
  | Some v => if String.eqb v "" then "present" else v
  | None => "present"
  end.

Definition getDetail (uuid detail : string) (validity : option string)
  : Promise :=
  let validity := validity_or_present validity in
  catch_
    (then_
       (request (Service_get
          ("/e/" ++ uuid ++ "/details/" ++ detail ++ "?validity=" ++ validity)))
       (fun response => data_of response))
    log_response.

Definition getEngagementDetails uuid validity :=
  getDetail uuid "engagement" validity.
Definition getRoleDetails uuid validity := getDetail uuid "role" validity.
Definition getItDetails uuid validity := getDetail uuid "it" validity.
Definition getAssociationDetails uuid validity :=
  getDetail uuid "association" validity.
Definition getLeaveDetails uuid validity := getDetail uuid "leave" validity.

Definition getDetailList (uuid : string) : Promise :=
  catch_
    (then_ (request (Service_get ("e/" ++ uuid ++ "/details/")))
       (fun response => data_of response))
    log_response.

Definition createEntry (uuid : string) (create : JsVal) : Promise :=
  catch_
    (then_ (request (Service_post ("/e/" ++ uuid ++ "/create") create))
       (fun response =>
          d <- data_of response ;;
          emit "employee-changed" d ;;
          data_of response))
    log_response.

(** The handler of [create] has no [return]: it yields [undefined]. *)
Definition create (uuid : string) (create : JsVal) : Promise :=
  then_ (createEntry uuid create)
    (fun response => emit "employee-create" response ;; ret JUndefined).

Definition leave (uuid : string) (leave : JsVal) : Promise :=
  then_ (createEntry uuid leave)
    (fun response => emit "employee-leave" response ;; ret JUndefined).

Definition edit (uuid : string) (edit : JsVal) : Promise :=
  catch_
    (then_ (request (Service_post ("/e/" ++ uuid ++ "/edit") edit))
       (fun response =>
          d <- data_of response ;;
          emit "employee-changed" d ;;
          data_of response))
    log_response.

Definition move (uuid : string) (move : JsVal) : Promise :=
  then_ (edit uuid move)
    (fun response => emit "employee-move" response ;; ret JUndefined).

Definition terminate (uuid : string) (end_ : JsVal) : Promise :=
  catch_
    (then_ (request (Service_post ("/e/" ++ uuid ++ "/terminate") end_))
       (fun response =>
          d <- data_of response ;;
          emit "employee-changed" d ;;
          d' <- data_of response ;;
          emit "employee-terminate" d' ;;
          data_of response))
    log_response.

End Client.
End Employee.

(* ================================================================== *)
(** ** The Validate resource client *)
(* ================================================================== *)

Module Validate.
Section Client.

(** [Validate] is an axios instance with base URL [/service/validate]:
    what the backend answers to a POST of a body to a path below it. *)
Variable Validate_post : string -> JsVal -> HttpOutcome.

Local Open Scope completion_scope.

Definition createErrorPayload (err : Exn) : Completion JsVal :=
  response <- exn_prop err "response" ;;
  data <- get_prop response "data" ;;
  error_key <- get_prop data "error_key" ;;
  Normal (JObj [("valid", JBool false); ("data", error_key)]).

(** Building the payload reads [org[0]] before any request is made, so
    the call itself can throw instead of returning a promise. *)
Definition cpr (cpr org : JsVal) : Completion Promise :=
  uuid <- get_index org 0 ;;
  let payload :=
    JObj [("cpr_no", cpr); ("org", JObj [("uuid", uuid)])] in
  Normal
    (then2 (request (Validate_post "/cpr/" payload))
       (fun result => ret (JBool true))
       (fun err => lift (createErrorPayload err))).

Definition orgUnit (orgUnit validity : JsVal) : Promise :=
  let payload :=
    JObj [("org_unit", JObj [("uuid", orgUnit)]); ("validity", validity)] in
  then2 (request (Validate_post "/org-unit/" payload))
    (fun result => ret (JBool true))
    (fun err => lift (createErrorPayload err)).

End Client.
End Validate.

(* ================================================================== *)
(** ** Validation rule adapters *)
(* ================================================================== *)

(** What a rule's [validate] returns: a plain value, or whatever the
    Validate client call it delegates to returns. *)
Inductive RuleResult (R : Type) : Type :=
| Plain (v : JsVal)
| Delegated (r : R).
Arguments Plain {R} v.
Arguments Delegated {R} r.

(** [args] is the parameter array the form-validation framework passes;
    an index past its end reads [undefined]. *)
Definition arg (args : list JsVal) (i : nat) : JsVal := nth i args JUndefined.

Module AssociationRule.
Section Rule.

(** [Validate.existingAssociations] is not part of the client above;
    the rule only passes its result on. *)
Variable R : Type.
Variable existingAssociations : JsVal -> JsVal -> JsVal -> JsVal -> R.

Local Open Scope completion_scope.

(** [!validity || !validity.from ||
     Object.keys(employee).length === 0 || !employee] *)
Definition guard (employee validity : JsVal) : Completion bool :=
  cor (Normal (negb (truthy validity)))
    (cor (cnot (get_prop validity "from"))
       (cor (keys <- object_keys employee ;;
             Normal (Nat.eqb (List.length keys) 0))
          (Normal (negb (truthy employee))))).

Definition validate (value : JsVal) (args : list JsVal)
  : Completion (RuleResult R) :=
  let employee := arg args 0 in
  let orgUnit := arg args 1 in
  let validity := arg args 2 in
  let associationUuid := arg args 3 in
  g <- guard employee validity ;;
  if g then Normal (Plain (JBool true))
  else Normal (Delegated
                 (existingAssociations orgUnit employee validity
                    associationUuid)).

Definition getMessage (value : JsVal) (args : list JsVal) (data : JsVal)
  : JsVal := data.

End Rule.
End AssociationRule.

Module CandidateParentRule.
Section Rule.

(** [Validate.candidateParentOrgUnit] is not part of the client above. *)
Variable R : Type.
Variable candidateParentOrgUnit : JsVal -> JsVal -> JsVal -> R.

Local Open Scope completion_scope.

(** [!validity || !validity.from] *)
Definition guard (validity : JsVal) : Completion bool :=
  cor (Normal (negb (truthy validity)))
    (cnot (get_prop validity "from")).

Definition validate (value : JsVal) (args : list JsVal)
  : Completion (RuleResult R) :=
  let orgUnit := arg args 0 in
  let parent := arg args 1 in
  let validity := arg args 2 in
  g <- guard validity ;;
  if g then Normal (Plain (JBool true))
  else Normal (Delegated (candidateParentOrgUnit orgUnit parent validity)).

End Rule.
End CandidateParentRule.

(* ================================================================== *)
(** ** The organisation-unit picker component *)
(* ================================================================== *)

Module Picker.

(** The component's reactive data.  [showTree] starts as [false] and is
    only ever assigned a boolean. *)
Record Data : Type := mkData {
  selectedSuperUnit : JsVal;
  showTree : bool;
  orgName : JsVal
}.

Definition data : Data := mkData JNull false JNull.

Definition toggleTree (d : Data) : Data :=
  mkData (selectedSuperUnit d) (negb (showTree d)) (orgName d).

(** A node of the tree is selected: [selectedSuperUnit] is assigned and
    its watcher runs.  The watcher reads [newVal.name] first; when that
    read throws nothing else of the watcher happens.  Otherwise it also
    validates and blurs the field and emits [input]; of these only the
    emitted value is kept, the component data being what the other two
    leave alone. *)
Definition select (newVal : JsVal) (d : Data) : Data * Completion JsVal :=
  match get_prop newVal "name" with
  | Normal n => (mkData newVal false n, Normal newVal)
  | Throw e => (mkData newVal (showTree d) (orgName d), Throw e)
  end.

(** The props the parent passes; a Boolean prop that is left out is
    [false]. *)
Record Props : Type := mkProps {
  value : JsVal;
  isDisabled : bool;
  required : bool
}.

(** ['org-unit-' + this._uid]; [_uid] is the instance counter. *)
Definition nameId (uid : nat) : string := "org-unit-" ++ index_key uid.

Definition isRequired (p : Props) : bool :=
  if isDisabled p then false else required p.

(** The rule the template gives the validator: [{required: required}]. *)
Definition fieldRule (p : Props) : JsVal :=
  JObj [("required", JBool (required p))].

(** [this.selectedSuperUnit = this.value || this.selectedSuperUnit] on the
    fresh component: with a truthy value the assignment changes the field
    and its watcher runs; otherwise the field is assigned itself and
    nothing happens. *)
Definition mounted (p : Props) : Data * option (Completion JsVal) :=
  if truthy (value p)
  then let (d, emitted) := select (value p) data in (d, Some emitted)
  else (data, None).

End Picker.

(* ================================================================== *)
(** ** Vocabulary of the specification *)
(* ================================================================== *)

(** A world in which nothing has been published or logged yet. *)
Definition quiet : World := mkWorld [] [].

(** The events a call published: what the bus holds after the call beyond
    what it held before. *)
Definition published (before after : World) : list Event :=
  skipn (List.length (eventBus before)) (eventBus after).

(** What a call logged to the console. *)
Definition logged (before after : World) : list JsVal :=
  skipn (List.length (console before)) (console after).

Definition count_named (n : string) (evs : list Event) : nat :=
  List.length (filter (fun e => String.eqb (name e) n) evs).

(** The generic change event and the operation-specific ones. *)
Definition generic_event : string := "employee-changed".

Definition operation_specific (n : string) : bool :=
  String.eqb n "employee-create" || String.eqb n "employee-leave"
  || String.eqb n "employee-move" || String.eqb n "employee-terminate".

(** The mutating operations of the Employee client. *)
Inductive Mutation : Type :=
| CreateEntry | Edit | Terminate | Create | Leave | Move.

Definition mutate (post : string -> JsVal -> HttpOutcome) (op : Mutation)
  (uuid : string) (body : JsVal) : Promise :=
  match op with
  | CreateEntry => Employee.createEntry post uuid body
  | Edit => Employee.edit post uuid body
  | Terminate => Employee.terminate post uuid body
  | Create => Employee.create post uuid body
  | Leave => Employee.leave post uuid body
  | Move => Employee.move post uuid body
  end.

(** The URL an operation posts to. *)
Definition endpoint (op : Mutation) (uuid : string) : string :=
  match op with
  | CreateEntry | Create | Leave => "/e/" ++ uuid ++ "/create"
  | Edit | Move => "/e/" ++ uuid ++ "/edit"
  | Terminate => "/e/" ++ uuid ++ "/terminate"
  end.

Definition is_wrapper (op : Mutation) : bool :=
  match op with
  | Create | Leave | Move => true
  | CreateEntry | Edit | Terminate => false
  end.

(** The operations that end in [.catch(error => console.log(error.response))]
    and the one that does not. *)
Inductive Query : Type :=
| GetAll (orgUuid : string)
| Get (uuid : string)
| History (uuid : string)
| GetDetail (uuid detail : string) (validity : option string)
| GetDetailList (uuid : string).

Definition query (get : string -> HttpOutcome) (q : Query) : Promise :=
  match q with
  | GetAll o => Employee.getAll get o
  | Get u => Employee.get get u
  | History u => Employee.history get u
  | GetDetail u d v => Employee.getDetail get u d v
  | GetDetailList u => Employee.getDetailList get u
  end.

Definition query_url (q : Query) : string :=
  match q with
  | GetAll o => "/o/" ++ o ++ "/e/"
  | Get u => "/e/" ++ u ++ "/"
  | History u => "/e/" ++ u ++ "/history/"
  | GetDetail u d v =>
      "/e/" ++ u ++ "/details/" ++ d ++ "?validity="
      ++ Employee.validity_or_present v
  | GetDetailList u => "e/" ++ u ++ "/details/"
  end.

(** The validation result of a failed check. *)
Definition validationFailure (k : JsVal) : JsVal :=
  JObj [("valid", JBool false); ("data", k)].

Definition validation_shape (v : JsVal) : Prop :=
  v = JBool true \/ exists k, v = validationFailure k.

Definition cpr_payload (cpr uuid : JsVal) : JsVal :=
  JObj [("cpr_no", cpr); ("org", JObj [("uuid", uuid)])].

Definition orgUnit_payload (orgUnit validity : JsVal) : JsVal :=
  JObj [("org_unit", JObj [("uuid", orgUnit)]); ("validity", validity)].

(** The error object has no response, or its response has no body:
    [err.response] or [err.response.data] is [undefined] or [null]. *)
Definition no_response_body (error : list (string * JsVal)) : bool :=
  match lookup "response" error with
  | None => true
  | Some r =>
      match get_prop r "data" with
      | Normal d => nullish d
      | Throw _ => true
      end
  end.

(** The validity argument is absent, or has no [from] field. *)
Definition lacks_from (validity : JsVal) : bool :=
  match validity with
  | JObj props =>
      match lookup "from" props with
      | Some _ => false
      | None => true
      end
  | _ => true
  end.

(** *** Sample backends and requests *)

(** A backend that accepts every POST and answers with the employee's
    uuid, and one that refuses every POST with status 500. *)
Definition accepting_backend : string -> JsVal -> HttpOutcome :=
  fun _ _ =>
    HttpOk [("data", JObj [("uuid", JStr "uuid-1")]); ("status", JNum 200)].

Definition refusing_backend : string -> JsVal -> HttpOutcome :=
  fun _ _ =>
    HttpErr [("response",
              JObj [("status", JNum 500);
                    ("data", JObj [("error_key", JStr "E_UNKNOWN")])])].

(** A request that got no answer at all: the error has no [response]. *)
Definition unreachable_backend : string -> JsVal -> HttpOutcome :=
  fun _ _ => HttpErr [("message", JStr "Network Error")].

Definition termination : JsVal :=
  JObj [("validity", JObj [("to", JStr "2024-01-01")])].

(** The scenario of the employee lookup: the body the backend answers
    with, and a backend that knows only that employee. *)
Definition scenario_body : JsVal :=
  JObj [("org", JObj [("uuid", JStr "org-1")]); ("name", JStr "X")].

Definition scenario_backend : string -> HttpOutcome :=
  fun url =>
    if String.eqb url "/e/uuid-1/"
    then HttpOk [("data", scenario_body); ("status", JNum 200)]
    else HttpErr [("response", JObj [("status", JNum 404)])].

Definition down_backend : string -> HttpOutcome :=
  fun _ => HttpErr [("response", JObj [("status", JNum 500)])].

(** The event a wrapper adds. *)
Definition wrapper_event (op : Mutation) : string :=
  match op with
  | Create => "employee-create"
  | Leave => "employee-leave"
  | Move => "employee-move"
  | CreateEntry | Edit | Terminate => ""
  end.

(** What the code does with one validation request, as corrected: it
    resolves to [true] on success and to the failure shape carrying the
    error key when the error carries one; whatever it resolves to has one
    of the two shapes; and it rejects, with a [TypeError], when the error
    has no response or no body, and only then. *)
Definition validation_contract (o : HttpOutcome) (s : Settled) : Prop :=
  (forall r, o = HttpOk r -> s = Resolved (JBool true))
  /\ (forall e r d k,
        o = HttpErr e ->
        get_prop (JObj e) "response" = Normal r ->
        get_prop r "data" = Normal d ->
        get_prop d "error_key" = Normal k ->
        s = Resolved (validationFailure k))
  /\ (forall v, s = Resolved v -> validation_shape v)
  /\ (forall e, o = HttpErr e -> no_response_body e = true ->
        s = Rejected TypeError)
  /\ (forall x, s = Rejected x ->
        x = TypeError /\ exists e, o = HttpErr e /\ no_response_body e = true).

(** Sample arguments of the association rule: a validity with a start
    date, and no employee. *)
Definition args_without_employee : list JsVal :=
  [JNull; JObj [("uuid", JStr "unit-1")];
   JObj [("from", JStr "2024-01-01"); ("to", JNull)]; JUndefined].

(** Sample arguments with an open form: the validity has no start yet. *)
Definition args_without_from : list JsVal :=
  [JObj [("uuid", JStr "uuid-1")]; JObj [("uuid", JStr "unit-1")];
   JObj [("to", JNull)]; JUndefined].

(** *** Vocabulary of the further properties *)

(** The operation-specific events of a successful mutation. *)
Definition specific_events (op : Mutation) (d : JsVal) : list Event :=
  match op with
  | CreateEntry | Edit => []
  | Terminate => [mkEvent "employee-terminate" d]
  | Create => [mkEvent "employee-create" d]
  | Leave => [mkEvent "employee-leave" d]
  | Move => [mkEvent "employee-move" d]
  end.

(** A backend whose refusal carries a body without [error_key]. *)
Definition keyless_backend : string -> JsVal -> HttpOutcome :=
  fun _ _ =>
    HttpErr [("response",
              JObj [("status", JNum 400);
                    ("data", JObj [("description", JStr "bad request")])])].

(** A backend that answers every GET with an empty JSON body. *)
Definition null_body_backend : string -> HttpOutcome :=
  fun _ => HttpOk [("data", JNull); ("status", JNum 200)].

(** A backend that answers every GET with a list of two employees. *)
Definition listing_backend : string -> HttpOutcome :=
  fun _ =>
    HttpOk [("data",
             JObj [("items", JArr [JStr "uuid-1"; JStr "uuid-2"]);
                   ("total", JNum 2)])].

(** What the user does to the picker: a click on the field; the pick of
    a node in the tree (a unit object) other than the object the picker
    holds; or the pick of that very object again.  Assigning the held
    object to [selectedSuperUnit] changes nothing, so its watcher does
    not run. *)
Inductive Action : Type :=
| Click
| Pick (node : list (string * JsVal))
| Repick.

Definition step (d : Picker.Data) (a : Action) : Picker.Data :=
  match a with
  | Click => Picker.toggleTree d
  | Pick node => fst (Picker.select (JObj node) d)
  | Repick => d
  end.

Definition run (d : Picker.Data) (actions : list Action) : Picker.Data :=
  fold_left step actions d.

(** The number of clicks since the last pick of another node (since the
    start when none was picked), counted on from [n]. *)
Definition clicks_since_pick (actions : list Action) (n : nat) : nat :=
  fold_left
    (fun k a => match a with Click => S k | Pick _ => 0 | Repick => k end)
    actions n.

(** The text shown is the name of the selected unit; nothing is selected
    and nothing shown on the fresh component. *)
Definition in_sync (d : Picker.Data) : Prop :=
  (Picker.selectedSuperUnit d = JNull /\ Picker.orgName d = JNull)
  \/ get_prop (Picker.selectedSuperUnit d) "name" = Normal (Picker.orgName d).

(** The validity is there and has a start: [validity] and
    [validity.from] are both truthy. *)
Definition has_start (validity : JsVal) : bool :=
  truthy validity
  && match get_prop validity "from" with
     | Normal from => truthy from
     | Throw _ => false
     end.

(** The node picked last, if any. *)
Definition last_pick (actions : list Action)
  : option (list (string * JsVal)) :=
  fold_left
    (fun o a => match a with Click | Repick => o | Pick node => Some node end)
    actions None.

(** An event under another name. *)
Definition renamed (from to : string) (e : Event) : Event :=
  if String.eqb (name e) from then mkEvent to (payload e) else e.

(** Sample arguments of the association rule with everything in place. *)
Definition args_complete : list JsVal :=
  [JObj [("uuid", JStr "uuid-1")]; JObj [("uuid", JStr "unit-1")];
   JObj [("from", JStr "2024-01-01"); ("to", JNull)]; JStr "assoc-1"].

(** The same with an employee that has not been chosen yet. *)
Definition args_empty_employee : list JsVal :=
  [JObj []; JObj [("uuid", JStr "unit-1")];
   JObj [("from", JStr "2024-01-01"); ("to", JNull)]; JUndefined].

(* ================================================================== *)
(** ** Auxiliary facts *)
(* ================================================================== *)

Local Open Scope list_scope.

Lemma skipn_length_app {A} (l r : list A) :
  skipn (List.length l) (l ++ r) = r.
Proof. induction l as [|x l IH]; simpl; auto. Qed.

Lemma published_extends (w w' : World) (evs : list Event) :
  eventBus w' = eventBus w ++ evs -> published w w' = evs.
Proof. unfold published; intros ->; apply skipn_length_app. Qed.

Lemma published_same (w w' : World) :
  eventBus w' = eventBus w -> published w w' = [].
Proof.
  intros H; apply published_extends; rewrite app_nil_r; exact H.
Qed.

Lemma logged_extends (w w' : World) (vs : list JsVal) :
  console w' = console w ++ vs -> logged w w' = vs.
Proof. unfold logged; intros ->; apply skipn_length_app. Qed.

(** *** The Employee operations, outcome by outcome *)

Section EmployeeRuns.

Variable get : string -> HttpOutcome.
Variable post : string -> JsVal -> HttpOutcome.

(** The three operations that post and publish the generic event. *)
Lemma createEntry_ok uuid body r w :
  post ("/e/" ++ uuid ++ "/create")%string body = HttpOk r ->
  Employee.createEntry post uuid body w =
    (Resolved (own "data" r),
     mkWorld (eventBus w ++ [mkEvent "employee-changed" (own "data" r)])
       (console w)).
Proof. intros H; unfold Employee.createEntry, catch_, then_, request;
       rewrite H; reflexivity. Qed.

Lemma createEntry_fail uuid body e w :
  post ("/e/" ++ uuid ++ "/create")%string body = HttpErr e ->
  Employee.createEntry post uuid body w =
    (Resolved JUndefined,
     mkWorld (eventBus w) (console w ++ [own "response" e])).
Proof. intros H; unfold Employee.createEntry, catch_, then_, request;
       rewrite H; reflexivity. Qed.

Lemma edit_ok uuid body r w :
  post ("/e/" ++ uuid ++ "/edit")%string body = HttpOk r ->
  Employee.edit post uuid body w =
    (Resolved (own "data" r),
     mkWorld (eventBus w ++ [mkEvent "employee-changed" (own "data" r)])
       (console w)).
Proof. intros H; unfold Employee.edit, catch_, then_, request;
       rewrite H; reflexivity. Qed.

Lemma edit_fail uuid body e w :
  post ("/e/" ++ uuid ++ "/edit")%string body = HttpErr e ->
  Employee.edit post uuid body w =
    (Resolved JUndefined,
     mkWorld (eventBus w) (console w ++ [own "response" e])).
Proof. intros H; unfold Employee.edit, catch_, then_, request;
       rewrite H; reflexivity. Qed.

Lemma terminate_ok uuid body r w :
  post ("/e/" ++ uuid ++ "/terminate")%string body = HttpOk r ->
  Employee.terminate post uuid body w =
    (Resolved (own "data" r),
     mkWorld (eventBus w ++ [mkEvent "employee-changed" (own "data" r);
                             mkEvent "employee-terminate" (own "data" r)])
       (console w)).
Proof.
  intros H; unfold Employee.terminate, catch_, then_, request.
  rewrite H; cbn. now rewrite <- app_assoc.
Qed.

Lemma terminate_fail uuid body e w :
  post ("/e/" ++ uuid ++ "/terminate")%string body = HttpErr e ->
  Employee.terminate post uuid body w =
    (Resolved JUndefined,
     mkWorld (eventBus w) (console w ++ [own "response" e])).
Proof. intros H; unfold Employee.terminate, catch_, then_, request;
       rewrite H; reflexivity. Qed.

(** A wrapper adds its own event to whatever the wrapped call did. *)
Lemma wrapper_after (p : Promise) (n : string) v w w1 :
  p w = (Resolved v, w1) ->
  then_ p (fun response => emit n response ;; ret JUndefined)%body w =
    (Resolved JUndefined,
     mkWorld (eventBus w1 ++ [mkEvent n v]) (console w1)).
Proof. intros H; unfold then_; rewrite H; reflexivity. Qed.

End EmployeeRuns.

Section EmployeeClaims.

Variable get : string -> HttpOutcome.
Variable post : string -> JsVal -> HttpOutcome.

(** What a successful mutation leaves behind: its settlement and the
    events it published, the generic one first. *)
Lemma mutate_ok op uuid body r w :
  post (endpoint op uuid) body = HttpOk r ->
  exists rest,
    eventBus (snd (mutate post op uuid body w)) =
      eventBus w ++ mkEvent generic_event (own "data" r) :: rest
    /\ Forall (fun e => operation_specific (name e) = true) rest.
Proof.
  intros H; destruct op; simpl in H; simpl.
  - rewrite (createEntry_ok _ _ _ _ w H). exists []; auto.
  - rewrite (edit_ok _ _ _ _ w H). exists []; auto.
  - rewrite (terminate_ok _ _ _ _ w H).
    exists [mkEvent "employee-terminate" (own "data" r)]; auto.
  - unfold Employee.create.
    rewrite (wrapper_after _ _ _ w _ (createEntry_ok _ _ _ _ w H)); simpl.
    exists [mkEvent "employee-create" (own "data" r)].
    rewrite <- app_assoc; auto.
  - unfold Employee.leave.
    rewrite (wrapper_after _ _ _ w _ (createEntry_ok _ _ _ _ w H)); simpl.
    exists [mkEvent "employee-leave" (own "data" r)].
    rewrite <- app_assoc; auto.
  - unfold Employee.move.
    rewrite (wrapper_after _ _ _ w _ (edit_ok _ _ _ _ w H)); simpl.
    exists [mkEvent "employee-move" (own "data" r)].
    rewrite <- app_assoc; auto.
Qed.

Lemma count_named_specific n rest :
  operation_specific n = false ->
  Forall (fun e => operation_specific (name e) = true) rest ->
  count_named n rest = 0.
Proof.
  intros Hn; induction 1 as [|e rest He _ IH]; [reflexivity|].
  unfold count_named in *; simpl.
  destruct (String.eqb_spec (name e) n) as [E|_]; [|exact IH].
  rewrite E in He; congruence.
Qed.

(** A direct mutation whose request fails logs and publishes nothing. *)
Lemma direct_mutation_fail op uuid body e w :
  is_wrapper op = false ->
  post (endpoint op uuid) body = HttpErr e ->
  mutate post op uuid body w =
    (Resolved JUndefined,
     mkWorld (eventBus w) (console w ++ [own "response" e])).
Proof.
  intros Hop H; destruct op; try discriminate; simpl in *.
  - now apply createEntry_fail.
  - now apply edit_fail.
  - now apply terminate_fail.
Qed.

(** A wrapper whose request fails still runs its own handler, on the
    [undefined] the wrapped call resolved to. *)
Lemma wrapper_mutation_fail op uuid body e w :
  is_wrapper op = true ->
  post (endpoint op uuid) body = HttpErr e ->
  mutate post op uuid body w =
    (Resolved JUndefined,
     mkWorld (eventBus w ++ [mkEvent (wrapper_event op) JUndefined])
       (console w ++ [own "response" e])).
Proof.
  intros Hop H; destruct op; try discriminate; simpl in *.
  - unfold Employee.create.
    now rewrite (wrapper_after _ _ _ w _ (createEntry_fail _ _ _ _ w H)).
  - unfold Employee.leave.
    now rewrite (wrapper_after _ _ _ w _ (createEntry_fail _ _ _ _ w H)).
  - unfold Employee.move.
    now rewrite (wrapper_after _ _ _ w _ (edit_fail _ _ _ _ w H)).
Qed.

(** Every query but [history] swallows a failed request: the error's
    response is logged and the promise resolves to [undefined]. *)
Lemma query_fail_swallowed q e w :
  (forall u, q <> History u) ->
  get (query_url q) = HttpErr e ->
  query get q w =
    (Resolved JUndefined,
     mkWorld (eventBus w) (console w ++ [own "response" e])).
Proof.
  intros Hq H; destruct q as [o|u|u|u d v|u]; cbn [query query_url] in *.
  - unfold Employee.getAll, catch_, then_, request; now rewrite H.
  - unfold Employee.get, catch_, then_, request; now rewrite H.
  - now elim (Hq u).
  - unfold Employee.getDetail, catch_, then_, request; now rewrite H.
  - unfold Employee.getDetailList, catch_, then_, request; now rewrite H.
Qed.

End EmployeeClaims.

(* ================================================================== *)
(** ** The Employee resource client: events and settlements *)
(* ================================================================== *)

(** C3.  A mutating operation (createEntry, edit, terminate, create, leave,
    move) whose request succeeds publishes the generic event
    'employee-changed' exactly once, as the first event of the call: every
    other event the call publishes is an operation-specific one and comes
    after it. *)
Theorem mutation_publishes_generic_event_first :
  forall (post : string -> JsVal -> HttpOutcome) (op : Mutation)
         (uuid : string) (body : JsVal)
         (response : list (string * JsVal)) (w : World),
    post (endpoint op uuid) body = HttpOk response ->
    count_named generic_event (published w (snd (mutate post op uuid body w)))
      = 1
    /\ exists d rest,
         published w (snd (mutate post op uuid body w)) =
           mkEvent generic_event d :: rest
         /\ Forall (fun e => operation_specific (name e) = true) rest.
Proof.
  intros post op uuid body r w H.
  destruct (mutate_ok post op uuid body r w H) as (rest & Hbus & Hrest).
  apply published_extends in Hbus; rewrite Hbus; split.
  - change (S (count_named generic_event rest) = 1).
    now rewrite (count_named_specific generic_event rest).
  - now exists (own "data" r), rest.
Qed.

Lemma mutation_publishes_generic_event_first_witness :
  count_named generic_event
    (published quiet
       (snd (mutate accepting_backend Terminate "uuid-1" termination quiet)))
    = 1
  /\ exists d rest,
       published quiet
         (snd (mutate accepting_backend Terminate "uuid-1" termination quiet))
         = mkEvent generic_event d :: rest
       /\ Forall (fun e => operation_specific (name e) = true) rest.
Proof.
  apply (mutation_publishes_generic_event_first accepting_backend Terminate
           "uuid-1" termination
           [("data", JObj [("uuid", JStr "uuid-1")]); ("status", JNum 200)]
           quiet).
  reflexivity.
Defined.

(** The scenario of the termination: both events, the generic one first,
    each carrying the response body, which is also what the promise
    resolves to. *)
Example terminate_scenario :
  Employee.terminate accepting_backend "uuid-1" termination quiet =
    (Resolved (JObj [("uuid", JStr "uuid-1")]),
     mkWorld
       [mkEvent "employee-changed" (JObj [("uuid", JStr "uuid-1")]);
        mkEvent "employee-terminate" (JObj [("uuid", JStr "uuid-1")])]
       []).
Proof. reflexivity. Qed.

(** C4.  The wrappers create, leave and move publish their
    operation-specific event although the request failed: createEntry and
    edit turn the failure into a resolution with [undefined], so the
    wrapper's handler runs and emits its event with payload [undefined].
    (The generic event is not published.) *)
Theorem wrapper_publishes_after_failed_request :
  forall (post : string -> JsVal -> HttpOutcome) (op : Mutation)
         (uuid : string) (body : JsVal)
         (error : list (string * JsVal)) (w : World),
    is_wrapper op = true ->
    post (endpoint op uuid) body = HttpErr error ->
    published w (snd (mutate post op uuid body w)) =
      [mkEvent (wrapper_event op) JUndefined]
    /\ operation_specific (wrapper_event op) = true.
Proof.
  intros post op uuid body e w Hop H; split.
  - rewrite (wrapper_mutation_fail post op uuid body e w Hop H).
    now apply published_extends.
  - destruct op; try discriminate; reflexivity.
Qed.

Lemma wrapper_publishes_after_failed_request_witness :
  published quiet
    (snd (mutate refusing_backend Create "uuid-1" (JObj []) quiet)) =
    [mkEvent "employee-create" JUndefined]
  /\ operation_specific "employee-create" = true.
Proof.
  apply (wrapper_publishes_after_failed_request refusing_backend Create
           "uuid-1" (JObj [])
           [("response",
             JObj [("status", JNum 500);
                   ("data", JObj [("error_key", JStr "E_UNKNOWN")])])]
           quiet); reflexivity.
Defined.

(** The direct operations createEntry, edit and terminate do keep quiet
    when their request fails. *)
Lemma direct_mutation_silent_on_failure :
  forall (post : string -> JsVal -> HttpOutcome) (op : Mutation)
         (uuid : string) (body : JsVal)
         (error : list (string * JsVal)) (w : World),
    is_wrapper op = false ->
    post (endpoint op uuid) body = HttpErr error ->
    published w (snd (mutate post op uuid body w)) = [].
Proof.
  intros post op uuid body e w Hop H.
  rewrite (direct_mutation_fail post op uuid body e w Hop H).
  now apply published_same.
Qed.

(** C10.  create, leave and move resolve to [undefined] on every input,
    whether the request succeeds (and createEntry/edit resolve to the
    response body) or fails. *)
Theorem wrappers_resolve_to_undefined :
  forall (post : string -> JsVal -> HttpOutcome)
         (uuid : string) (body : JsVal) (w : World),
    fst (Employee.create post uuid body w) = Resolved JUndefined
    /\ fst (Employee.leave post uuid body w) = Resolved JUndefined
    /\ fst (Employee.move post uuid body w) = Resolved JUndefined.
Proof.
  intros post uuid body w.
  assert (W : forall op, is_wrapper op = true ->
                fst (mutate post op uuid body w) = Resolved JUndefined).
  { intros op Hop.
    destruct (post (endpoint op uuid) body) as [r|e] eqn:H.
    - destruct op; try discriminate; simpl in *.
      + unfold Employee.create.
        now rewrite (wrapper_after _ _ _ w _ (createEntry_ok _ _ _ _ w H)).
      + unfold Employee.leave.
        now rewrite (wrapper_after _ _ _ w _ (createEntry_ok _ _ _ _ w H)).
      + unfold Employee.move.
        now rewrite (wrapper_after _ _ _ w _ (edit_ok _ _ _ _ w H)).
    - now rewrite (wrapper_mutation_fail post op uuid body e w Hop H). }
  repeat split; [apply (W Create)|apply (W Leave)|apply (W Move)]; reflexivity.
Qed.

(** The response body does reach the caller of createEntry and edit. *)
Lemma wrapped_calls_resolve_to_body :
  forall (post : string -> JsVal -> HttpOutcome) (uuid : string)
         (body : JsVal) (r : list (string * JsVal)) (w : World),
    (post ("/e/" ++ uuid ++ "/create")%string body = HttpOk r ->
     fst (Employee.createEntry post uuid body w) = Resolved (own "data" r))
    /\ (post ("/e/" ++ uuid ++ "/edit")%string body = HttpOk r ->
        fst (Employee.edit post uuid body w) = Resolved (own "data" r)).
Proof.
  intros; split; intros H.
  - now rewrite (createEntry_ok _ _ _ _ w H).
  - now rewrite (edit_ok _ _ _ _ w H).
Qed.

(** C6.  history has no rejection handler: when its request fails the
    promise rejects with the error, and nothing is logged. *)
Theorem history_rejects_on_failure :
  forall (get : string -> HttpOutcome) (uuid : string)
         (error : list (string * JsVal)) (w : World),
    get ("/e/" ++ uuid ++ "/history/")%string = HttpErr error ->
    Employee.history get uuid w = (Rejected (Raised (JObj error)), w).
Proof.
  intros get uuid e w H.
  unfold Employee.history, then_, request; now rewrite H.
Qed.

Lemma history_rejects_on_failure_witness :
  Employee.history down_backend "uuid-1" quiet =
    (Rejected (Raised (JObj [("response", JObj [("status", JNum 500)])])),
     quiet).
Proof.
  apply (history_rejects_on_failure down_backend "uuid-1"
           [("response", JObj [("status", JNum 500)])] quiet).
  reflexivity.
Defined.

(** X8.  The other operations absorb a failed request: the promise
    resolves to [undefined] and the error's response is the one thing
    logged. *)
Lemma other_operations_swallow_failure :
  forall (get : string -> HttpOutcome) (post : string -> JsVal -> HttpOutcome)
         (error : list (string * JsVal)) (w : World),
    (forall q, (forall u, q <> History u) ->
       get (query_url q) = HttpErr error ->
       fst (query get q w) = Resolved JUndefined
       /\ logged w (snd (query get q w)) = [own "response" error])
    /\ (forall op uuid body, is_wrapper op = false ->
          post (endpoint op uuid) body = HttpErr error ->
          fst (mutate post op uuid body w) = Resolved JUndefined
          /\ logged w (snd (mutate post op uuid body w)) =
               [own "response" error]).
Proof.
  intros get post e w; split.
  - intros q Hq H. rewrite (query_fail_swallowed get q e w Hq H).
    split; [reflexivity|now apply logged_extends].
  - intros op uuid body Hop H.
    rewrite (direct_mutation_fail post op uuid body e w Hop H).
    split; [reflexivity|now apply logged_extends].
Qed.

(** C5 (as the code has it).  Employee.get('uuid-1') against a backend
    answering with the body {org: {uuid: 'org-1'}, name: 'X'} publishes
    exactly one event, 'organisation-changed', whose payload is the body's
    [org] object {uuid: 'org-1'}, and resolves to the full body. *)
Theorem get_publishes_org_object :
  forall (get : string -> HttpOutcome)
         (response : list (string * JsVal)) (w : World),
    get "/e/uuid-1/"%string = HttpOk response ->
    own "data" response = scenario_body ->
    published w (snd (Employee.get get "uuid-1" w)) =
      [mkEvent "organisation-changed" (JObj [("uuid", JStr "org-1")])]
    /\ fst (Employee.get get "uuid-1" w) = Resolved scenario_body.
Proof.
  intros get r w H Hbody.
  assert (E : Employee.get get "uuid-1" w =
              (Resolved scenario_body,
               mkWorld
                 (eventBus w ++ [mkEvent "organisation-changed"
                                   (JObj [("uuid", JStr "org-1")])])
                 (console w))).
  { unfold Employee.get, catch_, then_, request.
    change ("/e/" ++ "uuid-1" ++ "/")%string with "/e/uuid-1/"%string.
    rewrite H. unfold Employee.data_of, bind, lift. cbn [get_prop].
    rewrite Hbody. reflexivity. }
  rewrite E; split; [now apply published_extends|reflexivity].
Qed.

Lemma get_publishes_org_object_witness :
  published quiet (snd (Employee.get scenario_backend "uuid-1" quiet)) =
    [mkEvent "organisation-changed" (JObj [("uuid", JStr "org-1")])]
  /\ fst (Employee.get scenario_backend "uuid-1" quiet) =
       Resolved scenario_body.
Proof.
  apply (get_publishes_org_object scenario_backend
           [("data", scenario_body); ("status", JNum 200)] quiet);
    reflexivity.
Defined.

(** C5 as stated fails: the payload is not the string 'org-1'. *)
Lemma get_payload_is_not_the_uuid_string :
  ~ (published quiet (snd (Employee.get scenario_backend "uuid-1" quiet)) =
       [mkEvent "organisation-changed" (JStr "org-1")]
     /\ fst (Employee.get scenario_backend "uuid-1" quiet) =
          Resolved scenario_body).
Proof. intros [H _]; vm_compute in H; discriminate H. Qed.

(* ================================================================== *)
(** ** The Validate resource client: conversion of errors *)
(* ================================================================== *)

Lemma get_prop_throws_TypeError v key e :
  get_prop v key = Throw e -> e = TypeError.
Proof. destruct v; simpl; congruence. Qed.

Lemma get_prop_nullish v key :
  nullish v = true -> get_prop v key = Throw TypeError.
Proof. destruct v; simpl; congruence. Qed.

Lemma get_prop_defined v key :
  nullish v = false -> exists x, get_prop v key = Normal x.
Proof. destruct v; simpl; try congruence; eauto. Qed.

(** The conversion throws exactly when the error has no response or no
    body; otherwise it yields the failure shape around whatever
    [error_key] reads, [undefined] when the body has no such field. *)
Lemma createErrorPayload_throws e :
  no_response_body e = true ->
  Validate.createErrorPayload (Raised (JObj e)) = Throw TypeError.
Proof.
  unfold no_response_body, Validate.createErrorPayload; simpl; unfold own.
  destruct (lookup "response" e) as [r|]; [|reflexivity].
  destruct (get_prop r "data") as [d|x] eqn:D; simpl.
  - intros N; now rewrite (get_prop_nullish d _ N).
  - intros _; now rewrite (get_prop_throws_TypeError _ _ _ D).
Qed.

Lemma createErrorPayload_converts e :
  no_response_body e = false ->
  exists r d k,
    get_prop (JObj e) "response" = Normal r
    /\ get_prop r "data" = Normal d
    /\ get_prop d "error_key" = Normal k
    /\ Validate.createErrorPayload (Raised (JObj e)) =
         Normal (validationFailure k).
Proof.
  unfold no_response_body, Validate.createErrorPayload; simpl; unfold own.
  destruct (lookup "response" e) as [r|]; [|discriminate].
  destruct (get_prop r "data") as [d|x] eqn:D; [|discriminate].
  intros N; destruct (get_prop_defined d "error_key" N) as [k K].
  exists r, d, k; simpl; rewrite K; auto.
Qed.

Lemma body_without_error_key_is_converted (e rp body : list (string * JsVal)) :
  lookup "response" e = Some (JObj rp) ->
  lookup "data" rp = Some (JObj body) ->
  lookup "error_key" body = None ->
  Validate.createErrorPayload (Raised (JObj e)) =
    Normal (validationFailure JUndefined).
Proof.
  intros H1 H2 H3; unfold Validate.createErrorPayload; simpl; unfold own.
  rewrite H1; simpl; unfold own; rewrite H2; simpl; unfold own.
  now rewrite H3.
Qed.

(** One validation request, whatever its URL and payload. *)
Lemma validation_request_contract (o : HttpOutcome) (w : World) :
  snd (then2 (request o) (fun _ => ret (JBool true))
         (fun err => lift (Validate.createErrorPayload err)) w) = w
  /\ validation_contract o
       (fst (then2 (request o) (fun _ => ret (JBool true))
               (fun err => lift (Validate.createErrorPayload err)) w)).
Proof.
  unfold then2, request, lift, ret; destruct o as [r|e]; simpl.
  - split; [reflexivity|]. split; [|split; [|split; [|split]]].
    + reflexivity.
    + discriminate.
    + intros v [= <-]; now left.
    + discriminate.
    + discriminate.
  - destruct (no_response_body e) eqn:N.
    + pose proof (createErrorPayload_throws e N) as T.
      rewrite T; simpl.
      split; [reflexivity|]. split; [|split; [|split; [|split]]].
      * discriminate.
      * intros e' r d k [= <-] R D K.
        unfold Validate.createErrorPayload in T; simpl in T, R.
        injection R as <-. rewrite D in T; simpl in T.
        rewrite K in T; discriminate.
      * discriminate.
      * reflexivity.
      * intros x [= <-]; split; [reflexivity|]. exists e; auto.
    + destruct (createErrorPayload_converts e N) as (r & d & k & R & D & K & C).
      rewrite C; simpl.
      split; [reflexivity|]. split; [|split; [|split; [|split]]].
      * discriminate.
      * intros e' r' d' k' [= <-] R' D' K'.
        rewrite R in R'; injection R' as <-.
        rewrite D in D'; injection D' as <-.
        rewrite K in K'; injection K' as <-. reflexivity.
      * intros v [= <-]; right; now exists k.
      * intros e' [= <-] N'; congruence.
      * discriminate.
Qed.

(* ================================================================== *)
(** ** The Validate resource client: cpr and orgUnit *)
(* ================================================================== *)

(** C1 (as the code has it).  The promise of Validate.orgUnit, and that of
    Validate.cpr, resolves to [true] when the request succeeds, and to
    {valid: false, data: k} when it fails with an error whose response
    body carries error_key k; whenever the promise resolves, its value has
    one of these two shapes.  It does not always resolve: it rejects with a
    TypeError when the error has no response or no body, and Validate.cpr
    throws before any request when [org] is undefined or null.  Neither
    call publishes or logs anything. *)
Theorem validate_calls_settle :
  forall (post : string -> JsVal -> HttpOutcome) (w : World),
    (forall u v,
       snd (Validate.orgUnit post u v w) = w
       /\ validation_contract (post "/org-unit/"%string (orgUnit_payload u v))
            (fst (Validate.orgUnit post u v w)))
    /\ (forall c org uuid,
          get_index org 0 = Normal uuid ->
          exists p,
            Validate.cpr post c org = Normal p
            /\ snd (p w) = w
            /\ validation_contract (post "/cpr/"%string (cpr_payload c uuid))
                 (fst (p w)))
    /\ (forall c org,
          nullish org = true -> Validate.cpr post c org = Throw TypeError).
Proof.
  intros post w; split; [|split].
  - intros u v; unfold Validate.orgUnit.
    apply validation_request_contract.
  - intros c org uuid H; unfold Validate.cpr; rewrite H; simpl.
    eexists; split; [reflexivity|].
    apply (validation_request_contract (post "/cpr/"%string (cpr_payload c uuid))).
  - intros c org H; unfold Validate.cpr.
    destruct org; simpl in *; congruence.
Qed.

Lemma validate_calls_settle_witness :
  fst (Validate.orgUnit unreachable_backend (JStr "unit-1") JNull quiet) =
    Rejected TypeError
  /\ fst (Validate.orgUnit refusing_backend (JStr "unit-1") JNull quiet) =
       Resolved (validationFailure (JStr "E_UNKNOWN"))
  /\ exists p,
       Validate.cpr accepting_backend (JStr "0101501234")
         (JArr [JStr "org-1"]) = Normal p
       /\ fst (p quiet) = Resolved (JBool true).
Proof.
  split; [|split].
  - destruct (validate_calls_settle unreachable_backend quiet) as [H _].
    destruct (H (JStr "unit-1") JNull) as [_ (_ & _ & _ & K & _)].
    apply (K [("message", JStr "Network Error")]); reflexivity.
  - destruct (validate_calls_settle refusing_backend quiet) as [H _].
    destruct (H (JStr "unit-1") JNull) as [_ (_ & K & _)].
    apply (K [("response",
               JObj [("status", JNum 500);
                     ("data", JObj [("error_key", JStr "E_UNKNOWN")])])]
             (JObj [("status", JNum 500);
                    ("data", JObj [("error_key", JStr "E_UNKNOWN")])])
             (JObj [("error_key", JStr "E_UNKNOWN")])
             (JStr "E_UNKNOWN")); reflexivity.
  - destruct (validate_calls_settle accepting_backend quiet) as (_ & H & _).
    destruct (H (JStr "0101501234") (JArr [JStr "org-1"]) (JStr "org-1")
                eq_refl) as (p & Hp & _ & (K & _)).
    exists p; split; [exact Hp|].
    apply (K [("data", JObj [("uuid", JStr "uuid-1")]); ("status", JNum 200)]).
    reflexivity.
Defined.

(** C1 as stated fails: a request that got no answer makes the promise
    reject, so its result has neither shape. *)
Lemma validate_result_not_always_shaped :
  ~ (exists v,
       fst (Validate.orgUnit unreachable_backend (JStr "unit-1") JNull quiet)
         = Resolved v
       /\ validation_shape v).
Proof. intros (v & H & _); vm_compute in H; discriminate H. Qed.

(** C7 (as the code has it).  When the request of Validate.orgUnit or
    Validate.cpr fails with an error that has no response or no body
    ([err.response] or [err.response.data] is undefined or null), the
    conversion of the error throws and the promise rejects with that
    TypeError instead of resolving to a validation result.  With any
    other error nothing throws: the promise resolves to {valid: false,
    data: k}, k being what [error_key] reads in the body, [undefined]
    when the body has no such field. *)
Theorem malformed_error_rejects :
  forall (post : string -> JsVal -> HttpOutcome)
         (error : list (string * JsVal)) (w : World),
    (forall u v,
       post "/org-unit/"%string (orgUnit_payload u v) = HttpErr error ->
       (no_response_body error = true ->
        Validate.orgUnit post u v w = (Rejected TypeError, w))
       /\ (no_response_body error = false ->
           exists r d k,
             get_prop (JObj error) "response" = Normal r
             /\ get_prop r "data" = Normal d
             /\ get_prop d "error_key" = Normal k
             /\ Validate.orgUnit post u v w =
                  (Resolved (validationFailure k), w)))
    /\ (forall c org uuid,
          get_index org 0 = Normal uuid ->
          post "/cpr/"%string (cpr_payload c uuid) = HttpErr error ->
          exists p,
            Validate.cpr post c org = Normal p
            /\ (no_response_body error = true ->
                p w = (Rejected TypeError, w))
            /\ (no_response_body error = false ->
                exists r d k,
                  get_prop (JObj error) "response" = Normal r
                  /\ get_prop r "data" = Normal d
                  /\ get_prop d "error_key" = Normal k
                  /\ p w = (Resolved (validationFailure k), w))).
Proof.
  intros post e w; split.
  - intros u v H; split; intros N.
    + unfold Validate.orgUnit, then2, request, lift.
      fold (orgUnit_payload u v); rewrite H.
      now rewrite (createErrorPayload_throws e N).
    + destruct (createErrorPayload_converts e N) as (r & d & k & R & D & K & C).
      exists r, d, k; repeat split; try assumption.
      unfold Validate.orgUnit, then2, request, lift.
      fold (orgUnit_payload u v); rewrite H. now rewrite C.
  - intros c org uuid I H; unfold Validate.cpr; rewrite I; simpl.
    eexists; split; [reflexivity|]; split; intros N.
    + unfold then2, request, lift.
      fold (cpr_payload c uuid); rewrite H.
      now rewrite (createErrorPayload_throws e N).
    + destruct (createErrorPayload_converts e N) as (r & d & k & R & D & K & C).
      exists r, d, k; repeat split; try assumption.
      unfold then2, request, lift.
      fold (cpr_payload c uuid); rewrite H. now rewrite C.
Qed.

Lemma malformed_error_rejects_witness :
  Validate.orgUnit unreachable_backend (JStr "unit-1") JNull quiet =
    (Rejected TypeError, quiet)
  /\ exists r d k,
       get_prop
         (JObj [("response",
                 JObj [("status", JNum 500);
                       ("data", JObj [("error_key", JStr "E_UNKNOWN")])])])
         "response" = Normal r
       /\ get_prop r "data" = Normal d
       /\ get_prop d "error_key" = Normal k
       /\ Validate.orgUnit refusing_backend (JStr "unit-1") JNull quiet =
            (Resolved (validationFailure k), quiet).
Proof.
  split.
  - apply (proj1 (malformed_error_rejects unreachable_backend
                    [("message", JStr "Network Error")] quiet)
             (JStr "unit-1") JNull eq_refl).
    reflexivity.
  - apply (proj1 (malformed_error_rejects refusing_backend
                    [("response",
                      JObj [("status", JNum 500);
                            ("data", JObj [("error_key", JStr "E_UNKNOWN")])])]
                    quiet)
             (JStr "unit-1") JNull eq_refl).
    reflexivity.
Defined.

(** C7 as stated fails: the body of this refusal has no [error_key], the
    expected field cannot be extracted from it, and yet nothing throws
    and the promise does not reject. *)
Lemma missing_field_does_not_reject :
  ~ (exists x,
       fst (Validate.orgUnit keyless_backend (JStr "unit-1") JNull quiet) =
         Rejected x).
Proof. intros [x E]; vm_compute in E; discriminate E. Qed.

(** X12.  A body that merely lacks the field does not make the conversion
    throw: the promise resolves, with [data] undefined. *)
Lemma missing_error_key_resolves :
  forall (post : string -> JsVal -> HttpOutcome)
         (error rp body : list (string * JsVal)) (u v : JsVal) (w : World),
    post "/org-unit/"%string (orgUnit_payload u v) = HttpErr error ->
    lookup "response" error = Some (JObj rp) ->
    lookup "data" rp = Some (JObj body) ->
    lookup "error_key" body = None ->
    Validate.orgUnit post u v w = (Resolved (validationFailure JUndefined), w).
Proof.
  intros post e rp body u v w H H1 H2 H3.
  unfold Validate.orgUnit, then2, request, lift.
  fold (orgUnit_payload u v); rewrite H.
  now rewrite (body_without_error_key_is_converted e rp body H1 H2 H3).
Qed.

(* ================================================================== *)
(** ** Validation rule adapters *)
(* ================================================================== *)

(** Without a validity, or with one that has no [from], the first two
    tests of either guard decide; what follows them is not evaluated. *)
Lemma guard_prefix_lacks_from (validity : JsVal) (rest : Completion bool) :
  lacks_from validity = true ->
  cor (Normal (negb (truthy validity)))
    (cor (cnot (get_prop validity "from")) rest) = Normal true.
Proof.
  destruct validity as [| |b|n|s|items|props]; simpl; try reflexivity.
  - now destruct b.
  - now destruct (n =? 0)%Z.
  - now destruct (String.eqb s "").
  - unfold own; destruct (lookup "from" props); [discriminate|reflexivity].
Qed.

(** The last test of the association guard never decides: an employee
    with at least one key is truthy. *)
Lemma keyed_employee_is_truthy (employee : JsVal) (keys : list string) :
  object_keys employee = Normal keys ->
  List.length keys <> 0 ->
  truthy employee = true.
Proof.
  destruct employee as [| |b|n|s|items|props]; simpl; try discriminate;
    intros [= <-]; simpl; try congruence.
  destruct s; simpl; congruence.
Qed.

(** C2.  Both rule adapters return [true] when the validity argument is
    absent or has no [from] field, whatever the value and the other
    arguments are. *)
Theorem validate_true_without_from :
  forall (RA RC : Type)
         (existingAssociations : JsVal -> JsVal -> JsVal -> JsVal -> RA)
         (candidateParentOrgUnit : JsVal -> JsVal -> JsVal -> RC)
         (value : JsVal) (args : list JsVal),
    lacks_from (arg args 2) = true ->
    AssociationRule.validate RA existingAssociations value args =
      Normal (Plain (JBool true))
    /\ CandidateParentRule.validate RC candidateParentOrgUnit value args =
         Normal (Plain (JBool true)).
Proof.
  intros RA RC ea cp value args H; split.
  - unfold AssociationRule.validate, AssociationRule.guard.
    now rewrite (guard_prefix_lacks_from _ _ H).
  - unfold CandidateParentRule.validate, CandidateParentRule.guard.
    destruct (arg args 2) as [| |b|n|s|items|props]; simpl in *;
      try reflexivity.
    + now destruct b.
    + now destruct (n =? 0)%Z.
    + now destruct (String.eqb s "").
    + unfold own; destruct (lookup "from" props);
        [discriminate|reflexivity].
Qed.

Lemma validate_true_without_from_witness :
  AssociationRule.validate JsVal (fun _ _ _ _ => JBool false) (JStr "x")
    args_without_from = Normal (Plain (JBool true))
  /\ CandidateParentRule.validate JsVal (fun _ _ _ => JBool false) (JStr "x")
       args_without_from = Normal (Plain (JBool true)).
Proof.
  apply (validate_true_without_from JsVal JsVal (fun _ _ _ _ => JBool false)
           (fun _ _ _ => JBool false) (JStr "x") args_without_from).
  reflexivity.
Defined.

(** C9.  The association adapter's validate throws a TypeError whenever the
    validity is present with a non-empty [from] and the employee is null or
    undefined: Object.keys(employee) is evaluated, and throws, before
    [!employee] is looked at. *)
Theorem association_validate_throws_without_employee :
  forall (R : Type)
         (existingAssociations : JsVal -> JsVal -> JsVal -> JsVal -> R)
         (value : JsVal) (args : list JsVal) (from : JsVal),
    truthy (arg args 2) = true ->
    get_prop (arg args 2) "from" = Normal from ->
    truthy from = true ->
    nullish (arg args 0) = true ->
    AssociationRule.validate R existingAssociations value args =
      Throw TypeError.
Proof.
  intros R ea value args from Hv Hf Ht He.
  unfold AssociationRule.validate, AssociationRule.guard, cnot.
  rewrite Hv, Hf; simpl; rewrite Ht; simpl.
  destruct (arg args 0); simpl in *; congruence.
Qed.

Lemma association_validate_throws_without_employee_witness :
  AssociationRule.validate JsVal (fun _ _ _ _ => JBool false) (JStr "x")
    args_without_employee = Throw TypeError.
Proof.
  apply (association_validate_throws_without_employee JsVal
           (fun _ _ _ _ => JBool false) (JStr "x") args_without_employee
           (JStr "2024-01-01")); reflexivity.
Defined.

(* ================================================================== *)
(** ** The organisation-unit picker *)
(* ================================================================== *)

(** C8 (as the code has it).  With no selection in between, toggling the
    tree twice brings the component back to the state it was in before the
    first toggle: [showTree] has its earlier value (collapsed when it was
    collapsed, expanded when it was expanded), and [selectedSuperUnit] and
    [orgName] are unchanged. *)
Theorem toggleTree_twice :
  forall d : Picker.Data,
    Picker.toggleTree (Picker.toggleTree d) = d.
Proof.
  intros [sel shown text]; unfold Picker.toggleTree; simpl.
  now rewrite negb_involutive.
Qed.

(** C8 as stated fails for an expanded picker: two toggles leave it
    expanded. *)
Lemma toggleTree_twice_stays_expanded :
  ~ (Picker.showTree
       (Picker.toggleTree (Picker.toggleTree (Picker.toggleTree Picker.data)))
     = false
     /\ Picker.selectedSuperUnit
          (Picker.toggleTree
             (Picker.toggleTree (Picker.toggleTree Picker.data)))
        = Picker.selectedSuperUnit (Picker.toggleTree Picker.data)
     /\ Picker.orgName
          (Picker.toggleTree
             (Picker.toggleTree (Picker.toggleTree Picker.data)))
        = Picker.orgName (Picker.toggleTree Picker.data)).
Proof. intros [H _]; discriminate H. Qed.

(** From the collapsed state the picker is collapsed again after two
    toggles, and expanded in between. *)
Lemma toggleTree_from_collapsed :
  forall d : Picker.Data,
    Picker.showTree d = false ->
    Picker.showTree (Picker.toggleTree d) = true
    /\ Picker.showTree (Picker.toggleTree (Picker.toggleTree d)) = false.
Proof.
  intros [sel shown text]; simpl; intros ->; auto.
Qed.

(** Selecting a node closes the tree and shows the node's name. *)
Lemma select_closes_tree :
  forall (props : list (string * JsVal)) (d : Picker.Data),
    Picker.select (JObj props) d =
      (Picker.mkData (JObj props) false (own "name" props),
       Normal (JObj props)).
Proof. reflexivity. Qed.

(* ================================================================== *)
(** ** The Employee resource client: further properties *)
(* ================================================================== *)

Lemma logged_same (w w' : World) :
  console w' = console w -> logged w w' = [].
Proof.
  intros H; apply logged_extends; rewrite app_nil_r; exact H.
Qed.

Lemma published_mk w evs c :
  published w (mkWorld (eventBus w ++ evs) c) = evs.
Proof. now apply published_extends. Qed.

Lemma published_mk_same w c : published w (mkWorld (eventBus w) c) = [].
Proof. now apply published_same. Qed.

Lemma logged_mk w b logs : logged w (mkWorld b (console w ++ logs)) = logs.
Proof. now apply logged_extends. Qed.

Lemma logged_mk_same w b : logged w (mkWorld b (console w)) = [].
Proof. now apply logged_same. Qed.

(** *** Successful requests *)

(** The whole effect of a successful mutation. *)
Lemma mutate_ok_exact post op uuid body r w :
  post (endpoint op uuid) body = HttpOk r ->
  mutate post op uuid body w =
    (Resolved (if is_wrapper op then JUndefined else own "data" r),
     mkWorld
       (eventBus w ++ mkEvent generic_event (own "data" r)
                      :: specific_events op (own "data" r))
       (console w)).
Proof.
  intros H; destruct op; cbn [mutate endpoint is_wrapper specific_events] in *.
  - now apply createEntry_ok.
  - now apply edit_ok.
  - now apply terminate_ok.
  - unfold Employee.create.
    rewrite (wrapper_after _ _ _ w _ (createEntry_ok _ _ _ _ w H)); simpl.
    now rewrite <- app_assoc.
  - unfold Employee.leave.
    rewrite (wrapper_after _ _ _ w _ (createEntry_ok _ _ _ _ w H)); simpl.
    now rewrite <- app_assoc.
  - unfold Employee.move.
    rewrite (wrapper_after _ _ _ w _ (edit_ok _ _ _ _ w H)); simpl.
    now rewrite <- app_assoc.
Qed.

(** X2.  Every event a successful mutation publishes carries the body of
    the response, the value createEntry, edit and terminate resolve to; a
    body that is missing or null is published as it is, and nothing is
    logged. *)
Theorem mutation_events_carry_body :
  forall (post : string -> JsVal -> HttpOutcome) (op : Mutation)
         (uuid : string) (body : JsVal)
         (response : list (string * JsVal)) (w : World),
    post (endpoint op uuid) body = HttpOk response ->
    Forall (fun e => payload e = own "data" response)
      (published w (snd (mutate post op uuid body w)))
    /\ (is_wrapper op = false ->
        fst (mutate post op uuid body w) = Resolved (own "data" response))
    /\ logged w (snd (mutate post op uuid body w)) = [].
Proof.
  intros post op uuid body r w H.
  rewrite (mutate_ok_exact post op uuid body r w H); simpl.
  split; [|split].
  - rewrite published_mk.
    constructor; [reflexivity|]. destruct op; simpl; auto.
  - now intros ->.
  - apply logged_mk_same.
Qed.

Lemma mutation_events_carry_body_witness :
  Forall (fun e => payload e = JObj [("uuid", JStr "uuid-1")])
    (published quiet
       (snd (mutate accepting_backend Move "uuid-1" (JObj []) quiet)))
  /\ (is_wrapper Move = false ->
      fst (mutate accepting_backend Move "uuid-1" (JObj []) quiet) =
        Resolved (JObj [("uuid", JStr "uuid-1")]))
  /\ logged quiet
       (snd (mutate accepting_backend Move "uuid-1" (JObj []) quiet)) = [].
Proof.
  apply (mutation_events_carry_body accepting_backend Move "uuid-1" (JObj [])
           [("data", JObj [("uuid", JStr "uuid-1")]); ("status", JNum 200)]
           quiet).
  reflexivity.
Defined.

(** X3.  Whatever the backend answers, a mutating call does exactly one
    of two things: it publishes the generic event, once, or it logs one
    line to the console. *)
Theorem mutation_publishes_or_logs :
  forall (post : string -> JsVal -> HttpOutcome) (op : Mutation)
         (uuid : string) (body : JsVal) (w : World),
    count_named generic_event (published w (snd (mutate post op uuid body w)))
    + List.length (logged w (snd (mutate post op uuid body w))) = 1.
Proof.
  intros post op uuid body w.
  destruct (post (endpoint op uuid) body) as [r|e] eqn:H.
  - rewrite (mutate_ok_exact post op uuid body r w H); simpl.
    rewrite published_mk, logged_mk_same.
    destruct op; reflexivity.
  - destruct (is_wrapper op) eqn:Hop.
    + rewrite (wrapper_mutation_fail post op uuid body e w Hop H); simpl.
      rewrite published_mk, logged_mk.
      destruct op; try discriminate; reflexivity.
    + rewrite (direct_mutation_fail post op uuid body e w Hop H); simpl.
      rewrite published_mk_same, logged_mk.
      reflexivity.
Qed.

(** X4.  history, getDetail and getDetailList resolve a successful request
    to the body of the response, whatever it is, and touch neither the
    event bus nor the console. *)
Theorem plain_queries_resolve_to_body :
  forall (get : string -> HttpOutcome) (q : Query)
         (response : list (string * JsVal)) (w : World),
    (forall o, q <> GetAll o) ->
    (forall u, q <> Get u) ->
    get (query_url q) = HttpOk response ->
    query get q w = (Resolved (own "data" response), w).
Proof.
  intros get q r w Hall Hget H.
  destruct q as [o|u|u|u d v|u]; cbn [query query_url] in *.
  - now elim (Hall o).
  - now elim (Hget u).
  - unfold Employee.history, then_, request; now rewrite H.
  - unfold Employee.getDetail, catch_, then_, request; now rewrite H.
  - unfold Employee.getDetailList, catch_, then_, request; now rewrite H.
Qed.

Lemma plain_queries_resolve_to_body_witness :
  query null_body_backend (History "uuid-1") quiet = (Resolved JNull, quiet).
Proof.
  apply (plain_queries_resolve_to_body null_body_backend (History "uuid-1")
           [("data", JNull); ("status", JNum 200)] quiet);
    [discriminate|discriminate|reflexivity].
Defined.

(** X5.  getAll resolves a successful request to the [items] of the body,
    [undefined] when the body has none.  When the body itself is null or
    missing, reading [items] throws inside the success handler; the
    rejection handler absorbs that TypeError, so the call resolves to
    [undefined] and logs [undefined], as it does for a failed request
    without a response. *)
Theorem getAll_items_or_swallowed_TypeError :
  forall (get : string -> HttpOutcome) (orgUuid : string)
         (response : list (string * JsVal)) (w : World),
    get ("/o/" ++ orgUuid ++ "/e/")%string = HttpOk response ->
    (forall items,
       get_prop (own "data" response) "items" = Normal items ->
       Employee.getAll get orgUuid w = (Resolved items, w))
    /\ (nullish (own "data" response) = true ->
        Employee.getAll get orgUuid w =
          (Resolved JUndefined,
           mkWorld (eventBus w) (console w ++ [JUndefined]))).
Proof.
  intros get o r w H; split.
  - intros items I.
    unfold Employee.getAll, catch_, then_, request; rewrite H.
    unfold Employee.data_of, bind, lift; cbn [get_prop]; now rewrite I.
  - intros N.
    unfold Employee.getAll, catch_, then_, request; rewrite H.
    unfold Employee.data_of, bind, lift; cbn [get_prop].
    now rewrite (get_prop_nullish _ "items" N).
Qed.

Lemma getAll_items_or_swallowed_TypeError_witness :
  Employee.getAll listing_backend "org-1" quiet =
    (Resolved (JArr [JStr "uuid-1"; JStr "uuid-2"]), quiet)
  /\ Employee.getAll null_body_backend "org-1" quiet =
       (Resolved JUndefined, mkWorld [] [JUndefined]).
Proof.
  split.
  - apply (proj1 (getAll_items_or_swallowed_TypeError listing_backend "org-1"
                    [("data",
                      JObj [("items", JArr [JStr "uuid-1"; JStr "uuid-2"]);
                            ("total", JNum 2)])] quiet eq_refl)).
    reflexivity.
  - apply (proj2 (getAll_items_or_swallowed_TypeError null_body_backend
                    "org-1" [("data", JNull); ("status", JNum 200)] quiet
                    eq_refl)).
    reflexivity.
Defined.

(** X6.  For every employee and every body that is not null or missing, a
    successful get publishes exactly one event, 'organisation-changed',
    carrying the body's [org] ([undefined] when the body has none), logs
    nothing and resolves to the body.  With a null or missing body it
    publishes nothing, logs [undefined] and resolves to [undefined]. *)
Theorem get_announces_org :
  forall (get : string -> HttpOutcome) (uuid : string)
         (response : list (string * JsVal)) (w : World),
    get ("/e/" ++ uuid ++ "/")%string = HttpOk response ->
    (forall org,
       get_prop (own "data" response) "org" = Normal org ->
       Employee.get get uuid w =
         (Resolved (own "data" response),
          mkWorld (eventBus w ++ [mkEvent "organisation-changed" org])
            (console w)))
    /\ (nullish (own "data" response) = true ->
        Employee.get get uuid w =
          (Resolved JUndefined,
           mkWorld (eventBus w) (console w ++ [JUndefined]))).
Proof.
  intros get u r w H; split.
  - intros org O.
    unfold Employee.get, catch_, then_, request; rewrite H.
    unfold Employee.data_of, bind, lift; cbn [get_prop]; now rewrite O.
  - intros N.
    unfold Employee.get, catch_, then_, request; rewrite H.
    unfold Employee.data_of, bind, lift; cbn [get_prop].
    now rewrite (get_prop_nullish _ "org" N).
Qed.

Lemma get_announces_org_witness :
  Employee.get listing_backend "uuid-7" quiet =
    (Resolved (JObj [("items", JArr [JStr "uuid-1"; JStr "uuid-2"]);
                     ("total", JNum 2)]),
     mkWorld [mkEvent "organisation-changed" JUndefined] [])
  /\ Employee.get null_body_backend "uuid-7" quiet =
       (Resolved JUndefined, mkWorld [] [JUndefined]).
Proof.
  split.
  - apply (proj1 (get_announces_org listing_backend "uuid-7"
                    [("data",
                      JObj [("items", JArr [JStr "uuid-1"; JStr "uuid-2"]);
                            ("total", JNum 2)])] quiet eq_refl)).
    reflexivity.
  - apply (proj2 (get_announces_org null_body_backend "uuid-7"
                    [("data", JNull); ("status", JNum 200)] quiet eq_refl)).
    reflexivity.
Defined.

(** X7.  getAll, history, getDetail and getDetailList never publish an
    event, whatever the backend answers; of the queries only get does. *)
Theorem readers_never_publish :
  forall (get : string -> HttpOutcome) (q : Query) (w : World),
    (forall u, q <> Get u) ->
    eventBus (snd (query get q w)) = eventBus w.
Proof.
  intros get q w Hget.
  destruct q as [o|u|u|u d v|u]; cbn [query].
  - unfold Employee.getAll, catch_, then_, request.
    destruct (get _) as [r|e]; [|reflexivity].
    unfold Employee.data_of, bind, lift; cbn [get_prop].
    destruct (get_prop (own "data" r) "items") as [items|x] eqn:I;
      [reflexivity|].
    now rewrite (get_prop_throws_TypeError _ _ _ I).
  - now elim (Hget u).
  - unfold Employee.history, then_, request.
    now destruct (get _).
  - unfold Employee.getDetail, catch_, then_, request.
    now destruct (get _).
  - unfold Employee.getDetailList, catch_, then_, request.
    now destruct (get _).
Qed.

Lemma readers_never_publish_witness :
  eventBus (snd (query null_body_backend (GetAll "org-1") quiet)) =
    eventBus quiet.
Proof.
  apply (readers_never_publish null_body_backend (GetAll "org-1") quiet).
  discriminate.
Defined.

Lemma other_operations_swallow_failure_witness :
  (fst (query down_backend (GetDetail "uuid-1" "it" None) quiet) =
     Resolved JUndefined
   /\ logged quiet (snd (query down_backend (GetDetail "uuid-1" "it" None)
                           quiet)) =
        [JObj [("status", JNum 500)]])
  /\ (fst (mutate refusing_backend Terminate "uuid-1" termination quiet) =
        Resolved JUndefined
      /\ List.length
           (logged quiet
              (snd (mutate refusing_backend Terminate "uuid-1" termination
                      quiet))) = 1).
Proof.
  split.
  - apply (proj1 (other_operations_swallow_failure down_backend
                    refusing_backend
                    [("response", JObj [("status", JNum 500)])] quiet)
             (GetDetail "uuid-1" "it" None));
      [discriminate|reflexivity].
  - destruct (proj2 (other_operations_swallow_failure down_backend
                       refusing_backend
                       [("response",
                         JObj [("status", JNum 500);
                               ("data",
                                JObj [("error_key", JStr "E_UNKNOWN")])])]
                       quiet)
                Terminate "uuid-1" termination eq_refl eq_refl) as [R L].
    split; [exact R|now rewrite L].
Defined.

(** X9.  An operation asks the backend one thing only: two backends that
    answer alike at the operation's URL (and body) make it behave alike,
    however they differ elsewhere. *)
Theorem operation_consults_its_url_only :
  forall (get1 get2 : string -> HttpOutcome)
         (post1 post2 : string -> JsVal -> HttpOutcome) (w : World),
    (forall q, get1 (query_url q) = get2 (query_url q) ->
       query get1 q w = query get2 q w)
    /\ (forall op uuid body,
          post1 (endpoint op uuid) body = post2 (endpoint op uuid) body ->
          mutate post1 op uuid body w = mutate post2 op uuid body w).
Proof.
  intros get1 get2 post1 post2 w; split.
  - intros q H; destruct q; cbn [query query_url] in *;
      unfold Employee.getAll, Employee.get, Employee.history,
        Employee.getDetail, Employee.getDetailList;
      unfold catch_, then_, request; now rewrite H.
  - intros op uuid body H; destruct op; cbn [mutate endpoint] in *;
      unfold Employee.create, Employee.leave, Employee.move,
        Employee.createEntry, Employee.edit, Employee.terminate;
      unfold catch_, then_, request; now rewrite H.
Qed.

Lemma operation_consults_its_url_only_witness :
  query scenario_backend (Get "uuid-2") quiet =
    query (fun _ => HttpErr [("response", JObj [("status", JNum 404)])])
      (Get "uuid-2") quiet.
Proof.
  apply (proj1 (operation_consults_its_url_only scenario_backend
                  (fun _ => HttpErr [("response", JObj [("status", JNum 404)])])
                  accepting_backend refusing_backend quiet)
           (Get "uuid-2")).
  reflexivity.
Defined.

(** X10.  getDetail puts a non-empty validity into the URL it requests
    as it is, and asks for 'present' when the validity is omitted or
    empty: in each case what the backend answers at that URL is what the
    call resolves to. *)
Theorem getDetail_defaults_to_present :
  forall (get : string -> HttpOutcome) (uuid detail : string)
         (response : list (string * JsVal)) (w : World),
    (forall v,
       v <> ""%string ->
       get ("/e/" ++ uuid ++ "/details/" ++ detail ++ "?validity=" ++ v)%string
         = HttpOk response ->
       Employee.getDetail get uuid detail (Some v) w =
         (Resolved (own "data" response), w))
    /\ (get ("/e/" ++ uuid ++ "/details/" ++ detail
             ++ "?validity=" ++ "present")%string = HttpOk response ->
        Employee.getDetail get uuid detail None w =
          (Resolved (own "data" response), w)
        /\ Employee.getDetail get uuid detail (Some ""%string) w =
             (Resolved (own "data" response), w)).
Proof.
  intros get uuid detail r w; split.
  - intros v Hv H.
    unfold Employee.getDetail, catch_, then_, request.
    cbn [Employee.validity_or_present].
    destruct (String.eqb_spec v ""); [contradiction|]. now rewrite H.
  - intros H; split;
      unfold Employee.getDetail, catch_, then_, request;
      cbn [Employee.validity_or_present String.eqb]; now rewrite H.
Qed.

(** X11.  create and leave are one request: for the same employee and
    payload they settle alike and log alike, and what leave publishes is
    what create publishes with 'employee-create' renamed to
    'employee-leave'. *)
Theorem create_and_leave_differ_in_event_name_only :
  forall (post : string -> JsVal -> HttpOutcome) (uuid : string)
         (body : JsVal) (w : World),
    fst (Employee.create post uuid body w) =
      fst (Employee.leave post uuid body w)
    /\ console (snd (Employee.create post uuid body w)) =
         console (snd (Employee.leave post uuid body w))
    /\ published w (snd (Employee.leave post uuid body w)) =
         map (renamed "employee-create" "employee-leave")
           (published w (snd (Employee.create post uuid body w))).
Proof.
  intros post uuid body w.
  change (Employee.create post uuid body w)
    with (mutate post Create uuid body w).
  change (Employee.leave post uuid body w)
    with (mutate post Leave uuid body w).
  destruct (post ("/e/" ++ uuid ++ "/create")%string body) as [r|e] eqn:H.
  - rewrite (mutate_ok_exact post Create uuid body r w H),
      (mutate_ok_exact post Leave uuid body r w H); simpl.
    now rewrite !published_mk.
  - rewrite (wrapper_mutation_fail post Create uuid body e w eq_refl H),
      (wrapper_mutation_fail post Leave uuid body e w eq_refl H); simpl.
    now rewrite !published_mk.
Qed.

Lemma getDetail_defaults_to_present_witness :
  Employee.getDetail
    (fun url =>
       if String.eqb url "/e/uuid-1/details/role?validity=past"
       then HttpOk [("data", JArr [JStr "role-1"])]
       else HttpErr [])
    "uuid-1" "role" (Some "past"%string) quiet =
    (Resolved (JArr [JStr "role-1"]), quiet).
Proof.
  apply (proj1 (getDetail_defaults_to_present
                  (fun url =>
                     if String.eqb url "/e/uuid-1/details/role?validity=past"
                     then HttpOk [("data", JArr [JStr "role-1"])]
                     else HttpErr [])
                  "uuid-1" "role" [("data", JArr [JStr "role-1"])] quiet)
           "past"%string).
  - discriminate.
  - reflexivity.
Defined.

(* ================================================================== *)
(** ** The Validate resource client: further properties *)
(* ================================================================== *)

Lemma missing_error_key_resolves_witness :
  Validate.orgUnit keyless_backend (JStr "unit-1") JNull quiet =
    (Resolved (validationFailure JUndefined), quiet).
Proof.
  apply (missing_error_key_resolves keyless_backend
           [("response",
             JObj [("status", JNum 400);
                   ("data", JObj [("description", JStr "bad request")])])]
           [("status", JNum 400);
            ("data", JObj [("description", JStr "bad request")])]
           [("description", JStr "bad request")]
           (JStr "unit-1") JNull quiet); reflexivity.
Defined.

(** X13.  Validate.cpr looks at [org] only through [org[0]]: two values
    with the same element 0 make the same call.  In particular a uuid
    given as a string instead of a one-element array is validated by its
    first code unit alone, and an empty string like an empty array. *)
Theorem cpr_uses_first_org_only :
  forall (post : string -> JsVal -> HttpOutcome) (cpr : JsVal),
    (forall org1 org2,
       get_index org1 0 = get_index org2 0 ->
       Validate.cpr post cpr org1 = Validate.cpr post cpr org2)
    /\ (forall s u rest,
          utf16_units s = u :: rest ->
          Validate.cpr post cpr (JStr s) =
            Validate.cpr post cpr (JArr [JStr (unit_string u)]))
    /\ Validate.cpr post cpr (JStr "") = Validate.cpr post cpr (JArr []).
Proof.
  intros post c; split; [|split].
  - intros org1 org2 H; unfold Validate.cpr; now rewrite H.
  - intros s u rest H; unfold Validate.cpr; simpl; now rewrite H.
  - reflexivity.
Qed.

Lemma cpr_uses_first_org_only_witness :
  Validate.cpr accepting_backend (JStr "0101501234") (JStr "org-1") =
    Validate.cpr accepting_backend (JStr "0101501234") (JArr [JStr "o"]).
Proof.
  apply (proj1 (proj2 (cpr_uses_first_org_only accepting_backend
                         (JStr "0101501234")))
           "org-1"%string 111%N [114%N; 103%N; 45%N; 49%N]).
  reflexivity.
Defined.

(* ================================================================== *)
(** ** Validation rule adapters: further properties *)
(* ================================================================== *)

Lemma guard_prefix_has_start (validity : JsVal) (rest : Completion bool) :
  has_start validity = true ->
  cor (Normal (negb (truthy validity)))
    (cor (cnot (get_prop validity "from")) rest) = rest.
Proof.
  unfold has_start, cnot; intros H.
  apply andb_true_iff in H as [T F]; rewrite T; simpl.
  destruct (get_prop validity "from") as [from|e]; [|discriminate].
  simpl; now rewrite F.
Qed.

Lemma guard_prefix_no_start (validity : JsVal) (rest : Completion bool) :
  has_start validity = false ->
  cor (Normal (negb (truthy validity)))
    (cor (cnot (get_prop validity "from")) rest) = Normal true.
Proof.
  unfold has_start, cnot; intros H.
  destruct (truthy validity) eqn:T; simpl in *; [|reflexivity].
  destruct (get_prop validity "from") as [from|e] eqn:G; simpl.
  - now rewrite H.
  - destruct validity; simpl in *; discriminate.
Qed.

(** X14.  Evaluating the guard of the candidate-parent adapter never
    throws, whatever the validity is: [validity.from] is read only from a
    truthy validity.  validate does not look at the value under
    validation: it returns [true] unless the validity and its [from] are
    both truthy, and then what it returns is the backend check called
    with args[0], args[1] and args[2] in that order. *)
Theorem candidate_parent_validate_total :
  forall (R : Type) (candidateParentOrgUnit : JsVal -> JsVal -> JsVal -> R)
         (value : JsVal) (args : list JsVal),
    CandidateParentRule.guard (arg args 2) =
      Normal (negb (has_start (arg args 2)))
    /\ CandidateParentRule.validate R candidateParentOrgUnit value args =
         if has_start (arg args 2)
         then Normal (Delegated
                        (candidateParentOrgUnit (arg args 0) (arg args 1)
                           (arg args 2)))
         else Normal (Plain (JBool true)).
Proof.
  intros R cp value args.
  assert (G : CandidateParentRule.guard (arg args 2) =
              Normal (negb (has_start (arg args 2)))).
  { unfold CandidateParentRule.guard, has_start, cnot.
    destruct (arg args 2) as [| |b|n|s|items|props]; simpl; try reflexivity.
    - now destruct b.
    - now destruct (n =? 0)%Z.
    - now destruct (String.eqb s ""). }
  split; [exact G|].
  unfold CandidateParentRule.validate; rewrite G; simpl.
  now destruct (has_start (arg args 2)).
Qed.

(** X15.  With a validity that has a start, the association adapter calls
    the backend check as soon as the employee has at least one own key:
    the final [!employee] test never decides.  It passes the org unit
    (args[1]) first and the employee (args[0]) second, then the validity
    and the association uuid. *)
Theorem association_validate_delegates :
  forall (R : Type)
         (existingAssociations : JsVal -> JsVal -> JsVal -> JsVal -> R)
         (value : JsVal) (args : list JsVal) (key : string)
         (keys : list string),
    has_start (arg args 2) = true ->
    object_keys (arg args 0) = Normal (key :: keys) ->
    AssociationRule.validate R existingAssociations value args =
      Normal (Delegated
                (existingAssociations (arg args 1) (arg args 0) (arg args 2)
                   (arg args 3))).
Proof.
  intros R ea value args key keys H K.
  unfold AssociationRule.validate, AssociationRule.guard.
  rewrite (guard_prefix_has_start _ _ H), K; simpl.
  now rewrite (keyed_employee_is_truthy (arg args 0) (key :: keys) K).
Qed.

Lemma association_validate_delegates_witness :
  AssociationRule.validate (list JsVal) (fun a b c d => [a; b; c; d])
    (JStr "x") args_complete =
    Normal (Delegated
              [JObj [("uuid", JStr "unit-1")]; JObj [("uuid", JStr "uuid-1")];
               JObj [("from", JStr "2024-01-01"); ("to", JNull)];
               JStr "assoc-1"]).
Proof.
  apply (association_validate_delegates (list JsVal)
           (fun a b c d => [a; b; c; d]) (JStr "x") args_complete
           "uuid"%string []); reflexivity.
Defined.

(** X16.  An employee without own keys (an empty object, but also a
    number, a boolean or the empty string) passes the association rule
    without any backend check, whatever the other arguments are; so does
    any employee, even a missing one, as long as the validity has no
    start. *)
Theorem association_validate_skips_empty_employee :
  forall (R : Type)
         (existingAssociations : JsVal -> JsVal -> JsVal -> JsVal -> R)
         (value : JsVal) (args : list JsVal),
    has_start (arg args 2) = false
    \/ object_keys (arg args 0) = Normal [] ->
    AssociationRule.validate R existingAssociations value args =
      Normal (Plain (JBool true)).
Proof.
  intros R ea value args [H|K];
    unfold AssociationRule.validate, AssociationRule.guard.
  - now rewrite (guard_prefix_no_start _ _ H).
  - destruct (has_start (arg args 2)) eqn:H.
    + now rewrite (guard_prefix_has_start _ _ H), K.
    + now rewrite (guard_prefix_no_start _ _ H).
Qed.

Lemma association_validate_skips_empty_employee_witness :
  AssociationRule.validate JsVal (fun _ _ _ _ => JBool false) (JStr "x")
    args_empty_employee = Normal (Plain (JBool true)).
Proof.
  apply (association_validate_skips_empty_employee JsVal
           (fun _ _ _ _ => JBool false) (JStr "x") args_empty_employee).
  right; reflexivity.
Defined.

(* ================================================================== *)
(** ** The organisation-unit picker: further properties *)
(* ================================================================== *)

(** What mounting does, by the truthiness of the value. *)
Lemma mounted_cases (p : Picker.Props) :
  (exists n,
     truthy (Picker.value p) = true
     /\ get_prop (Picker.value p) "name" = Normal n
     /\ Picker.mounted p =
          (Picker.mkData (Picker.value p) false n,
           Some (Normal (Picker.value p))))
  \/ (truthy (Picker.value p) = false
      /\ Picker.mounted p = (Picker.data, None)).
Proof.
  destruct p as [v dis req]; unfold Picker.mounted, Picker.select; simpl.
  destruct v as [| |b|k|s|items|props]; simpl;
    try (right; split; reflexivity);
    try (left; eexists; repeat split; reflexivity).
  - destruct b; [left; eexists; repeat split|right; split]; reflexivity.
  - destruct (k =? 0)%Z; [right; split|left; eexists; repeat split];
      reflexivity.
  - destruct (String.eqb s ""); [right; split|left; eexists; repeat split];
      reflexivity.
Qed.

(** X17.  Mounting never throws.  A picker mounted with a truthy value
    starts collapsed, shows the value's [name] ([undefined] when it has
    none) and emits the value once as [input]; mounted without one it is
    the fresh component and emits nothing. *)
Theorem mounted_shows_value :
  forall p : Picker.Props,
    (truthy (Picker.value p) = true ->
     exists n,
       get_prop (Picker.value p) "name" = Normal n
       /\ Picker.mounted p =
            (Picker.mkData (Picker.value p) false n,
             Some (Normal (Picker.value p))))
    /\ (truthy (Picker.value p) = false ->
        Picker.mounted p = (Picker.data, None)).
Proof.
  intros p; destruct (mounted_cases p) as [(n & T & N & M)|[T M]];
    split; intros T'; try congruence.
  now exists n.
Qed.

Lemma mounted_shows_value_witness :
  (exists n,
     get_prop (JObj [("uuid", JStr "unit-1"); ("name", JStr "IT")]) "name" =
       Normal n
     /\ Picker.mounted
          (Picker.mkProps (JObj [("uuid", JStr "unit-1"); ("name", JStr "IT")])
             false true) =
          (Picker.mkData (JObj [("uuid", JStr "unit-1"); ("name", JStr "IT")])
             false n,
           Some (Normal (JObj [("uuid", JStr "unit-1"); ("name", JStr "IT")]))))
  /\ Picker.mounted (Picker.mkProps JUndefined false true) =
       (Picker.data, None).
Proof.
  split.
  - apply (proj1 (mounted_shows_value
                    (Picker.mkProps
                       (JObj [("uuid", JStr "unit-1"); ("name", JStr "IT")])
                       false true))).
    reflexivity.
  - apply (proj2 (mounted_shows_value (Picker.mkProps JUndefined false true))).
    reflexivity.
Defined.

Lemma mounted_collapsed (p : Picker.Props) :
  Picker.showTree (fst (Picker.mounted p)) = false.
Proof.
  destruct (mounted_cases p) as [(n & _ & _ & ->)|[_ ->]]; reflexivity.
Qed.

Lemma run_parity (actions : list Action) :
  forall (d : Picker.Data) (n : nat),
    Picker.showTree d = Nat.odd n ->
    Picker.showTree (run d actions) = Nat.odd (clicks_since_pick actions n).
Proof.
  unfold run, clicks_since_pick.
  induction actions as [|a actions IH]; intros d n H; simpl; [exact H|].
  apply IH; destruct a as [|node|]; simpl.
  - rewrite H, Nat.odd_succ; apply Nat.negb_odd.
  - reflexivity.
  - exact H.
Qed.

(** X18.  Once mounted, whatever the user clicks and picks, the tree is
    shown exactly when the number of clicks since the last pick of
    another node (since mounting when none was picked) is odd; picking
    again the object the picker holds neither closes nor opens it. *)
Theorem tree_shown_iff_odd_clicks_since_pick :
  forall (p : Picker.Props) (actions : list Action),
    Picker.showTree (run (fst (Picker.mounted p)) actions) =
      Nat.odd (clicks_since_pick actions 0).
Proof.
  intros p actions; apply run_parity; apply mounted_collapsed.
Qed.

(** X19.  The selected unit is the node picked last, and the unit the
    picker held to begin with as long as nothing is picked: clicks on the
    field never change or lose the selection. *)
Theorem selection_is_last_pick :
  forall (d : Picker.Data) (actions : list Action),
    Picker.selectedSuperUnit (run d actions) =
      match last_pick actions with
      | Some node => JObj node
      | None => Picker.selectedSuperUnit d
      end.
Proof.
  intros d actions; unfold run, last_pick.
  induction actions as [|a actions IH] using rev_ind; [reflexivity|].
  rewrite !fold_left_app; simpl.
  destruct a as [|node|]; simpl.
  - exact IH.
  - now destruct (get_prop (JObj node) "name").
  - exact IH.
Qed.

Lemma step_in_sync (d : Picker.Data) (a : Action) :
  in_sync d -> in_sync (step d a).
Proof.
  intros H; destruct a as [|node|]; simpl.
  - exact H.
  - right; reflexivity.
  - exact H.
Qed.

(** X20.  As long as the user only clicks and picks, the text in the
    field is the name of the selected unit: that holds when the picker is
    mounted, with or without a value, and after every click and pick. *)
Theorem text_follows_selection :
  forall (p : Picker.Props) (actions : list Action),
    in_sync (run (fst (Picker.mounted p)) actions).
Proof.
  intros p actions.
  assert (H0 : in_sync (fst (Picker.mounted p))).
  { destruct (mounted_cases p) as [(n & _ & N & ->)|[_ ->]].
    - right; exact N.
    - left; split; reflexivity. }
  revert H0; unfold run; generalize (fst (Picker.mounted p)).
  induction actions as [|a actions IH]; intros d H; simpl; [exact H|].
  apply IH, step_in_sync, H.
Qed.

Lemma index_key_injective (m n : nat) : index_key m = index_key n -> m = n.
Proof.
  unfold index_key; intros H.
  assert (N : forall k, Nat.to_uint k <> Decimal.Nil).
  { intros k; rewrite <- (DecimalNat.Unsigned.of_to k) at 1.
    rewrite DecimalNat.Unsigned.to_of; apply DecimalFacts.unorm_nonnil. }
  apply DecimalNat.Unsigned.to_uint_inj.
  pose proof (NilZero.usu _ (N m)) as Um.
  pose proof (NilZero.usu _ (N n)) as Un.
  rewrite H in Um; rewrite Um in Un; now injection Un.
Qed.

(** X21.  Two pickers with different instance numbers get different
    field names, so their validation errors cannot be mixed up. *)
Theorem nameId_distinct :
  forall m n : nat, m <> n -> Picker.nameId m <> Picker.nameId n.
Proof.
  intros m n D H; apply D, index_key_injective.
  unfold Picker.nameId in H; simpl in H.
  now repeat injection H as H.
Qed.

Lemma nameId_distinct_witness : Picker.nameId 1 <> Picker.nameId 11.
Proof. apply (nameId_distinct 1 11); discriminate. Defined.

(** X22.  The rule given to the validator does not know [isDisabled]: a
    picker that is disabled and required is not required according to
    [isRequired], and still validated as required. *)
Theorem disabled_picker_still_required :
  forall p : Picker.Props,
    Picker.isDisabled p = true ->
    Picker.required p = true ->
    Picker.isRequired p = false
    /\ get_prop (Picker.fieldRule p) "required" = Normal (JBool true).
Proof.
  intros [v dis req]; simpl; intros -> ->; split; reflexivity.
Qed.

Lemma disabled_picker_still_required_witness :
  Picker.isRequired (Picker.mkProps JUndefined true true) = false
  /\ get_prop (Picker.fieldRule (Picker.mkProps JUndefined true true))
       "required" = Normal (JBool true).
Proof.
  apply (disabled_picker_still_required (Picker.mkProps JUndefined true true));
    reflexivity.
Defined.
